(** * The Idea Box tool of Editor.js ([src/index.js]): a shallow embedding

    The tool is a JavaScript class with a constructor and the two methods
    [render] and [save].  It runs against two pieces of environment that
    are not part of the repository: the JavaScript object heap and the
    browser's DOM.  Both are modelled here with the operations the tool
    uses, in the order the tool uses them:

    - JavaScript values, objects as finite maps from property names to
      values, a heap of objects addressed by references, and an
      exception-and-state monad for method bodies;
    - DOM elements as trees, with [document.createElement],
      [classList.add], the [contentEditable] and [innerHTML] properties,
      [dataset], [appendChild] and [querySelector] on a class selector.

    The browser's HTML fragment parser and serialiser are taken as an
    interface ([Browser]); only their behaviour on plain text is fixed. *)

From stdpp Require Import base option list strings gmap fin_maps pretty.
From Stdlib Require Import ZArith Ascii String.

Local Open Scope string_scope.
Local Open Scope Z_scope.

(** ** JavaScript values and the object heap *)

Module JS.

(** Object references. *)
Definition loc := positive.

(** The values of the fragment of JavaScript the tool touches.  Numbers
    are NaN and the integers JavaScript writes digit by digit, those of
    magnitude below 2^53; functions, symbols and bigints do not occur,
    and objects hold data properties only. *)
Inductive value :=
| VUndefined
| VNull
| VBool (b : bool)
| VNum (n : Z)
| VNaN
| VStr (s : string)
| VObj (l : loc).

#[global] Instance value_eq_dec : EqDecision value.
Proof. solve_decision. Defined.

(** A plain object: own data properties. *)
Abbreviation object := (gmap string value).
Abbreviation heap := (gmap loc (gmap string value)).

Inductive exn := TypeError | SyntaxError | InvalidCharacterError.

#[global] Instance exn_eq_dec : EqDecision exn.
Proof. solve_decision. Defined.

Inductive result (A : Type) :=
| Ok (a : A)
| Throw (e : exn).
Arguments Ok {A} a.
Arguments Throw {A} e.

(** The state a method body runs in: the object heap, and the number of
    elements [document.createElement] has handed out so far. *)
Record state := State { st_heap : heap; st_created : nat }.

(** A computation may change the state and then either return or throw;
    what it changed before throwing stays changed. *)
Definition M (A : Type) : Type := state -> result A * state.

Definition ret {A} (a : A) : M A := fun st => (Ok a, st).

Definition throw {A} (e : exn) : M A := fun st => (Throw e, st).

Definition bind {A B} (m : M A) (k : A -> M B) : M B :=
  fun st =>
    match m st with
    | (Ok a, st') => k a st'
    | (Throw e, st') => (Throw e, st')
    end.

(** ToBoolean. *)
Definition truthy (v : value) : bool :=
  match v with
  | VUndefined | VNull | VNaN => false
  | VBool b => b
  | VNum n => negb (n =? 0)
  | VStr s => negb (String.eqb s "")
  | VObj _ => true
  end.

(** [a || b]: the left operand when it is truthy, else the right one. *)
Definition or_else (a b : value) : value := if truthy a then a else b.

(** [!a] *)
Definition negate (a : value) : value := VBool (negb (truthy a)).

(** ToString.  An integer is written in decimal, which is what JavaScript
    writes for the integers of magnitude below 2^53 (above that it rounds
    to 17 digits and, from 10^21 on, writes an exponent); an object
    converts with Object.prototype.toString, which is what JavaScript
    does for the objects that have no [toString] property of their own
    (with one that is no function the conversion throws).  On strings,
    booleans, null, undefined and NaN the conversion is as written. *)
Definition to_string (v : value) : string :=
  match v with
  | VUndefined => "undefined"
  | VNull => "null"
  | VBool true => "true"
  | VBool false => "false"
  | VNum n => pretty n
  | VNaN => "NaN"
  | VStr s => s
  | VObj _ => "[object Object]"
  end.

(** [typeof v === "string"] *)
Definition is_string (v : value) : bool :=
  match v with VStr _ => true | _ => false end.

Definition nullish (v : value) : bool :=
  match v with VUndefined | VNull => true | _ => false end.

(** Reading an own property of the object at [l]; [None] when the
    property is absent. *)
Definition field (h : heap) (l : loc) (k : string) : option value :=
  h !! l ≫= (fun o : gmap string value => o !! k).

(** [v.k]: a TypeError on undefined and null, undefined for an absent
    property.  None of the names the tool reads is defined on the
    prototypes of the primitive values. *)
Definition get_prop (v : value) (k : string) : M value :=
  fun st =>
    match v with
    | VUndefined | VNull => (Throw TypeError, st)
    | VObj l => (Ok (default VUndefined (field (st_heap st) l k)), st)
    | _ => (Ok VUndefined, st)
    end.

(** [l.k = v] on an object reference. *)
Definition set_prop (l : loc) (k : string) (v : value) : M unit :=
  fun st =>
    (Ok tt,
     State (<[l := <[k := v]> (default ∅ (st_heap st !! l))]> (st_heap st))
           (st_created st)).

(** A fresh object with the given properties: [new], an object literal. *)
Definition alloc (o : gmap string value) : M loc :=
  fun st =>
    let l := fresh (dom (st_heap st)) in
    (Ok l, State (<[l := o]> (st_heap st)) (st_created st)).

(** [Object.assign(target, source)], the source being an object literal
    that is built for the call and dropped after it: its properties are
    written to the target in order and the target is returned.  A
    primitive target is wrapped in a new object. *)
Definition object_assign (target : value) (source : list (string * value))
  : M value :=
  match target with
  | VUndefined | VNull => throw TypeError
  | VObj l =>
      fun st =>
        (Ok (VObj l),
         State (<[l := foldl (fun o kv => <[kv.1 := kv.2]> o)
                             (default ∅ (st_heap st !! l)) source]>
                  (st_heap st))
               (st_created st))
  | _ => bind (alloc (list_to_map source)) (fun l => ret (VObj l))
  end.

End JS.

Import JS.

Declare Scope js_scope.
Delimit Scope js_scope with js.
Notation "x <- m ;; k" := (bind m (fun x => k))
  (at level 100, m at next level, right associativity) : js_scope.
Notation "m ;;; k" := (bind m (fun _ => k))
  (at level 100, right associativity) : js_scope.

(** ** The fragment of the DOM the tool uses *)

Module DOM.

(** The state of the [contentEditable] property. *)
Inductive editable := CE_true | CE_false | CE_inherit | CE_plaintext_only.

#[global] Instance editable_eq_dec : EqDecision editable.
Proof. solve_decision. Defined.

(** A node is a text node or an element; an element has its tag, its
    class list (an ordered set of tokens), its [contentEditable] state,
    its [dataset], the other properties assigned to it, and its child
    nodes in document order. *)
Inductive node :=
| Text (data : string)
| Elem (e : element)
with element :=
| Element (tagName : string) (classList : list string)
          (contentEditable : editable) (dataset : gmap string string)
          (props : gmap string value) (childNodes : list node).

Definition tagName (e : element) : string :=
  match e with Element t _ _ _ _ _ => t end.
Definition classList (e : element) : list string :=
  match e with Element _ c _ _ _ _ => c end.
Definition contentEditable (e : element) : editable :=
  match e with Element _ _ ce _ _ _ => ce end.
Definition dataset (e : element) : gmap string string :=
  match e with Element _ _ _ d _ _ => d end.
Definition props (e : element) : gmap string value :=
  match e with Element _ _ _ _ p _ => p end.
Definition childNodes (e : element) : list node :=
  match e with Element _ _ _ _ _ k => k end.

(** ASCII whitespace, which a class token may not contain. *)
Definition is_space (c : ascii) : bool :=
  let n := nat_of_ascii c in
  ((n =? 9) || (n =? 10) || (n =? 12) || (n =? 13) || (n =? 32))%nat.

Fixpoint has_space (s : string) : bool :=
  match s with
  | EmptyString => false
  | String c r => is_space c || has_space r
  end.

(** The checks of [DOMTokenList.add], token by token. *)
Fixpoint check_tokens (tokens : list string) : M unit :=
  match tokens with
  | [] => ret tt
  | t :: r =>
      if String.eqb t "" then throw SyntaxError
      else if has_space t then throw InvalidCharacterError
      else check_tokens r
  end.

Definition append_token (cl : list string) (t : string) : list string :=
  if bool_decide (t ∈ cl) then cl else cl ++ [t].

Definition with_classList (e : element) (cl : list string) : element :=
  Element (tagName e) cl (contentEditable e) (dataset e) (props e)
          (childNodes e).

(** [el.classList.add(...tokens)] *)
Definition classList_add (e : element) (tokens : list string) : M element :=
  bind (check_tokens tokens) (fun _ =>
  ret (with_classList e (foldl append_token (classList e) tokens))).

Definition lower (c : ascii) : ascii :=
  let n := nat_of_ascii c in
  if ((65 <=? n) && (n <=? 90))%nat then ascii_of_nat (n + 32) else c.

Fixpoint lowercase (s : string) : string :=
  match s with
  | EmptyString => EmptyString
  | String c r => String (lower c) (lowercase r)
  end.

(** [el.contentEditable = v]: the keyword is matched without regard to
    case, anything else is a SyntaxError. *)
Definition set_contentEditable (e : element) (v : value) : M element :=
  let s := lowercase (to_string v) in
  let put ce :=
    ret (Element (tagName e) (classList e) ce (dataset e) (props e)
                 (childNodes e)) in
  if String.eqb s "true" then put CE_true
  else if String.eqb s "false" then put CE_false
  else if String.eqb s "inherit" then put CE_inherit
  else if String.eqb s "plaintext-only" then put CE_plaintext_only
  else throw SyntaxError.

(** [el.dataset[name] = s] *)
Definition dataset_set (e : element) (name s : string) : element :=
  Element (tagName e) (classList e) (contentEditable e)
          (<[name := s]> (dataset e)) (props e) (childNodes e).

(** [parent.appendChild(child)] for a child that is not in a tree yet. *)
Definition appendChild (parent child : element) : element :=
  Element (tagName parent) (classList parent) (contentEditable parent)
          (dataset parent) (props parent) (childNodes parent ++ [Elem child]).

Definition has_class (cls : string) (e : element) : bool :=
  bool_decide (cls ∈ classList e).

(** The first element among the descendants of [e], in document order,
    that carries the class [cls]. *)
Fixpoint first_with_class (cls : string) (e : element) : option element :=
  (fix scan (ns : list node) : option element :=
     match ns with
     | [] => None
     | Text _ :: r => scan r
     | Elem c :: r =>
         if has_class cls c then Some c
         else match first_with_class cls c with
              | Some d => Some d
              | None => scan r
              end
     end) (childNodes e).

(** The same search over a list of sibling nodes. *)
Fixpoint first_in_nodes (cls : string) (ns : list node) : option element :=
  match ns with
  | [] => None
  | Text _ :: r => first_in_nodes cls r
  | Elem c :: r =>
      if has_class cls c then Some c
      else match first_with_class cls c with
           | Some d => Some d
           | None => first_in_nodes cls r
           end
  end.

(** The descendants of an element, in document order. *)
Fixpoint descendants (e : element) : list element :=
  (fix walk (ns : list node) : list element :=
     match ns with
     | [] => []
     | Text _ :: r => walk r
     | Elem c :: r => c :: descendants c ++ walk r
     end) (childNodes e).

Fixpoint descendants_of (ns : list node) : list element :=
  match ns with
  | [] => []
  | Text _ :: r => descendants_of r
  | Elem c :: r => c :: descendants c ++ descendants_of r
  end.

(** A selector made of one class name: a dot and then letters, digits,
    [_] and [-]. *)
Definition is_name_char (c : ascii) : bool :=
  let n := nat_of_ascii c in
  (((48 <=? n) && (n <=? 57)) || ((65 <=? n) && (n <=? 90))
   || ((97 <=? n) && (n <=? 122)) || (n =? 95) || (n =? 45))%nat.

Fixpoint all_name_chars (s : string) : bool :=
  match s with
  | EmptyString => true
  | String c r => is_name_char c && all_name_chars r
  end.

Definition class_selector (sel : string) : option string :=
  match sel with
  | String "." (String c r) =>
      if all_name_chars (String c r)
         && negb ((48 <=? nat_of_ascii c) && (nat_of_ascii c <=? 57))%nat
         && negb (Ascii.eqb c "-")
      then Some (String c r) else None
  | _ => None
  end.

(** [el.querySelector(sel)].  The selectors modelled are the ones the tool
    builds, a dot and one of its own class names; any other string gets
    the SyntaxError with which the browser answers a malformed selector. *)
Definition querySelector (sel : string) (e : element)
  : M (option element) :=
  match class_selector sel with
  | Some cls => ret (first_with_class cls e)
  | None => throw SyntaxError
  end.

End DOM.

Import DOM.

(** ** The browser's HTML parser and serialiser *)

(** Setting [innerHTML] runs the HTML fragment parser and reading it runs
    the fragment serialiser.  Both belong to the browser.  What is fixed
    of them here is what the HTML standard says of plain text: a string
    of ASCII characters without [<], [&], NUL and CR parses to one text
    node holding that string (to no node when it is empty), and a text
    node is written back with [&], [<] and [>] escaped. *)

Definition is_ascii (c : ascii) : bool := (nat_of_ascii c <? 128)%nat.

Definition is_markup_char (c : ascii) : bool :=
  let n := nat_of_ascii c in
  ((n =? 0) || (n =? 13) || (n =? 38) || (n =? 60))%nat.

Fixpoint ascii_text (s : string) : bool :=
  match s with
  | EmptyString => true
  | String c r => is_ascii c && ascii_text r
  end.

Fixpoint plain_text (s : string) : bool :=
  match s with
  | EmptyString => true
  | String c r => is_ascii c && negb (is_markup_char c) && plain_text r
  end.

Definition text_run (s : string) : list node :=
  match s with
  | EmptyString => []
  | _ => [Text s]
  end.

Fixpoint escape (s : string) : string :=
  match s with
  | EmptyString => EmptyString
  | String c r =>
      (if Ascii.eqb c "&" then "&amp;"
       else if Ascii.eqb c "<" then "&lt;"
       else if Ascii.eqb c ">" then "&gt;"
       else String c EmptyString) ++ escape r
  end.

(** [document.createElement] refuses a name that is not a valid element
    name.  Which names are valid is the browser's to say; fixed here is
    what the versions of the DOM standard agree on: a name of ASCII
    letters and digits that begins with a letter is valid, the empty name
    and a name with white space in it are not. *)

Definition is_letter (c : ascii) : bool :=
  let n := nat_of_ascii c in
  (((65 <=? n) && (n <=? 90)) || ((97 <=? n) && (n <=? 122)))%nat.

Definition is_digit (c : ascii) : bool :=
  let n := nat_of_ascii c in ((48 <=? n) && (n <=? 57))%nat.

Fixpoint letters_and_digits (s : string) : bool :=
  match s with
  | EmptyString => true
  | String c r => (is_letter c || is_digit c) && letters_and_digits r
  end.

Definition simple_name (s : string) : bool :=
  match s with
  | EmptyString => false
  | String c r => is_letter c && letters_and_digits r
  end.

Class Browser := {
  parseHTML : string -> list node;
  serializeHTML : list node -> string;
  valid_element_name : string -> bool;
  parseHTML_plain : forall s, plain_text s = true -> parseHTML s = text_run s;
  serializeHTML_nil : serializeHTML [] = "";
  serializeHTML_text :
    forall s, ascii_text s = true -> serializeHTML [Text s] = escape s;
  valid_element_name_simple :
    forall s, simple_name s = true -> valid_element_name s = true;
  valid_element_name_empty : valid_element_name "" = false;
  valid_element_name_space :
    forall s, has_space s = true -> valid_element_name s = false
}.

(** A browser that is right on plain text and takes every other string
    for text as well, and that takes the names of letters and digits for
    the valid ones; the examples below run on it, on plain text. *)
Definition text_serialize (ns : list node) : string :=
  foldr (fun n acc =>
           match n with
           | Text s => escape s ++ acc
           | Elem _ => acc
           end) "" ns.

Definition text_browser : Browser.
Proof.
  refine {| parseHTML := text_run; serializeHTML := text_serialize;
            valid_element_name := simple_name |}.
  - done.
  - done.
  - intros s _. simpl. generalize (escape s). intros e.
    induction e as [|c r IH]; [done |].
    change (String c (r ++ "") = String c r). by rewrite IH.
  - done.
  - done.
  - assert (Hsp : forall c, is_space c = true ->
                            is_letter c = false /\ is_digit c = false).
    { intros c. unfold is_space, is_letter, is_digit.
      generalize (nat_of_ascii c). intros n H.
      repeat (apply orb_prop in H as [H|H]);
        apply Nat.eqb_eq in H; subst; done. }
    assert (Hrest : forall r, has_space r = true ->
                              letters_and_digits r = false).
    { induction r as [|c r IH]; [done |]. simpl. intros H.
      apply orb_prop in H as [H|H].
      - destruct (Hsp c H) as [-> ->]. done.
      - rewrite (IH H). apply andb_false_r. }
    intros [|c r]; [done |]. simpl. intros H.
    apply orb_prop in H as [H|H].
    + destruct (Hsp c H) as [-> _]. done.
    + rewrite (Hrest r H). apply andb_false_r.
Defined.

Section Tool.

Context {browser : Browser}.

Local Open Scope js_scope.

(** [document.createElement(tagName)] in an HTML document: an
    InvalidCharacterError for a name that is not valid, and else a new
    element under the name in lower case. *)
Definition createElement (tagName : string) : M element :=
  fun st =>
    if valid_element_name tagName
    then (Ok (Element (lowercase tagName) [] CE_inherit ∅ ∅ []),
          State (st_heap st) (S (st_created st)))
    else (Throw InvalidCharacterError, st).

(** [el.innerHTML = v]; null is written as the empty string. *)
Definition set_innerHTML (e : element) (v : value) : element :=
  let s := match v with VNull => "" | _ => to_string v end in
  Element (tagName e) (classList e) (contentEditable e) (dataset e)
          (props e) (parseHTML s).

(** [el.innerHTML] *)
Definition innerHTML (e : element) : string := serializeHTML (childNodes e).

(** [el.innerHTML] where [el] may be null. *)
Definition innerHTML_of (el : option element) : M string :=
  match el with
  | Some e => ret (innerHTML e)
  | None => throw TypeError
  end.

(** [el[attrName] = v].  The two names [render] passes have setters of
    their own; any other name is kept as a property of the element. *)
Definition set_attribute (e : element) (attrName : string) (v : value)
  : M element :=
  if String.eqb attrName "contentEditable" then set_contentEditable e v
  else if String.eqb attrName "innerHTML" then ret (set_innerHTML e v)
  else ret (Element (tagName e) (classList e) (contentEditable e)
                    (dataset e) (<[attrName := v]> (props e))
                    (childNodes e)).

(** ** The class [Idea] *)

Definition isReadOnlySupported : bool := true.

Definition enableLineBreaks : bool := true.

Definition DEFAULT_TITLE_PLACEHOLDER : string := "Title".

Definition DEFAULT_MESSAGE_PLACEHOLDER : string := "Message".

(** The object the getter [CSS] returns. *)
Record css := Css {
  css_baseClass : value;
  css_wrapper : string;
  css_title : string;
  css_input : value;
  css_message : string
}.

(** [get CSS()]: the object is built anew at every access, reading
    [this.api.styles.block] and [this.api.styles.input]. *)
Definition CSS (this : loc) : M css :=
  api <- get_prop (VObj this) "api" ;;
  styles <- get_prop api "styles" ;;
  block <- get_prop styles "block" ;;
  api' <- get_prop (VObj this) "api" ;;
  styles' <- get_prop api' "styles" ;;
  input <- get_prop styles' "input" ;;
  ret (Css block "cdx-idea" "cdx-idea__title" input "cdx-idea__message").

(** [constructor({ data, config, api, readOnly })], run by [new] on a
    fresh instance. *)
Definition constructor (arg : value) : M loc :=
  this <- alloc ∅ ;;
  data <- get_prop arg "data" ;;
  config <- get_prop arg "config" ;;
  api <- get_prop arg "api" ;;
  readOnly <- get_prop arg "readOnly" ;;
  set_prop this "api" api ;;;
  set_prop this "readOnly" readOnly ;;;
  tp <- get_prop config "titlePlaceholder" ;;
  set_prop this "titlePlaceholder"
    (or_else tp (VStr DEFAULT_TITLE_PLACEHOLDER)) ;;;
  mp <- get_prop config "messagePlaceholder" ;;
  set_prop this "messagePlaceholder"
    (or_else mp (VStr DEFAULT_MESSAGE_PLACEHOLDER)) ;;;
  t <- get_prop data "title" ;;
  m <- get_prop data "message" ;;
  record <- alloc (<["message" := or_else m (VStr "")]>
                     (<["title" := or_else t (VStr "")]> ∅)) ;;
  set_prop this "data" (VObj record) ;;;
  ret this.

(** The second argument of [_make]: an array of class names, or anything
    else. *)
Inductive class_names :=
| ClassArray (names : list value)
| ClassOther (name : value).

Fixpoint set_attributes (e : element) (attributes : list (string * value))
  : M element :=
  match attributes with
  | [] => ret e
  | (attrName, v) :: r =>
      e' <- set_attribute e attrName v ;;
      set_attributes e' r
  end.

(** [_make(tagName, classNames = null, attributes = {})]; the attributes
    are listed in the order [for ... in] visits them. *)
Definition _make (tagName : string) (classNames : class_names)
           (attributes : list (string * value)) : M element :=
  el <- createElement tagName ;;
  el <- match classNames with
        | ClassArray names => classList_add el (to_string <$> names)
        | ClassOther name =>
            if truthy name then classList_add el [to_string name]
            else ret el
        end ;;
  set_attributes el attributes.

(** [render()] *)
Definition render (this : loc) : M element :=
  c <- CSS this ;;
  c' <- CSS this ;;
  container <- _make "div"
                 (ClassArray [css_baseClass c; VStr (css_wrapper c')]) [] ;;
  c <- CSS this ;;
  c' <- CSS this ;;
  readOnly <- get_prop (VObj this) "readOnly" ;;
  data <- get_prop (VObj this) "data" ;;
  t <- get_prop data "title" ;;
  title <- _make "div" (ClassArray [css_input c; VStr (css_title c')])
             [("contentEditable", negate readOnly); ("innerHTML", t)] ;;
  c <- CSS this ;;
  c' <- CSS this ;;
  readOnly <- get_prop (VObj this) "readOnly" ;;
  data <- get_prop (VObj this) "data" ;;
  m <- get_prop data "message" ;;
  message <- _make "div" (ClassArray [css_input c; VStr (css_message c')])
               [("contentEditable", negate readOnly); ("innerHTML", m)] ;;
  tp <- get_prop (VObj this) "titlePlaceholder" ;;
  let title := dataset_set title "placeholder" (to_string tp) in
  mp <- get_prop (VObj this) "messagePlaceholder" ;;
  let message := dataset_set message "placeholder" (to_string mp) in
  let container := appendChild container title in
  let container := appendChild container message in
  ret container.

(** [save(ideaElement)] *)
Definition save (this : loc) (ideaElement : element) : M value :=
  c <- CSS this ;;
  title <- querySelector ("." ++ css_title c) ideaElement ;;
  c <- CSS this ;;
  message <- querySelector ("." ++ css_message c) ideaElement ;;
  target <- get_prop (VObj this) "data" ;;
  t <- innerHTML_of title ;;
  m <- innerHTML_of message ;;
  object_assign target [("title", VStr t); ("message", VStr m)].

End Tool.

(** ** What the statements below speak of *)

(** A class token that [classList.add] accepts. *)
Definition class_token (s : string) : bool :=
  negb (String.eqb s "") && negb (has_space s).

(** The value [v.k] has in the heap [h], for a [v] that can be read from. *)
Definition prop_of (h : heap) (v : value) (k : string) : value :=
  match v with
  | VObj l => default VUndefined (field h l k)
  | _ => VUndefined
  end.

(** A reference is allocated when it points into the heap. *)
Definition allocated (h : heap) (v : value) : Prop :=
  match v with
  | VObj l => is_Some (h !! l)
  | _ => True
  end.

(** What an instance of the tool holds: its four own values, the reference
    to its record, and the two fields of the record. *)
Record widget := Widget {
  w_api : value;
  w_readOnly : value;
  w_titlePlaceholder : value;
  w_messagePlaceholder : value;
  w_data : loc;
  w_title : value;
  w_message : value
}.

(** The object at [this] is an instance that holds [w]. *)
Definition widget_at (h : heap) (this : loc) (w : widget) : Prop :=
  field h this "api" = Some (w_api w)
  ∧ field h this "readOnly" = Some (w_readOnly w)
  ∧ field h this "titlePlaceholder" = Some (w_titlePlaceholder w)
  ∧ field h this "messagePlaceholder" = Some (w_messagePlaceholder w)
  ∧ field h this "data" = Some (VObj (w_data w))
  ∧ field h (w_data w) "title" = Some (w_title w)
  ∧ field h (w_data w) "message" = Some (w_message w).

(** The editor's side of the contract: [api.styles.block] and
    [api.styles.input] are class tokens. *)
Definition host_api (h : heap) (api : value) (block input : string) : Prop :=
  ∃ la ls,
    api = VObj la
    ∧ field h la "styles" = Some (VObj ls)
    ∧ field h ls "block" = Some (VStr block)
    ∧ field h ls "input" = Some (VStr input)
    ∧ class_token block = true
    ∧ class_token input = true.

(** The string [innerHTML] receives for a value. *)
Definition markup (v : value) : string :=
  match v with
  | VNull => ""
  | _ => to_string v
  end.

(** The browser reads a string back as it was written. *)
Definition reads_back {browser : Browser} (s : string) : Prop :=
  serializeHTML (parseHTML s) = s.

(** Text that holds no character the serialiser escapes. *)
Definition literal_text (s : string) : bool :=
  plain_text s && String.eqb (escape s) s.

(** The element [render] is expected to build for the instance [w] under
    the style tokens [block] and [input]. *)
Definition region {browser : Browser} (w : widget) (input marker : string)
           (content placeholder : value) : element :=
  Element "div" (foldl append_token [] [input; marker])
          (if truthy (w_readOnly w) then CE_false else CE_true)
          (<["placeholder" := to_string placeholder]> ∅) ∅
          (parseHTML (markup content)).

Definition title_region {browser : Browser} (w : widget) (input : string)
  : element :=
  region w input "cdx-idea__title" (w_title w) (w_titlePlaceholder w).

Definition message_region {browser : Browser} (w : widget) (input : string)
  : element :=
  region w input "cdx-idea__message" (w_message w) (w_messagePlaceholder w).

Definition rendered {browser : Browser} (w : widget) (block input : string)
  : element :=
  Element "div" (foldl append_token [] [block; "cdx-idea"]) CE_inherit ∅ ∅
          [Elem (title_region w input); Elem (message_region w input)].

(** The record of an instance after [save] wrote [t] and [m] to it. *)
Definition saved_heap (h : heap) (record : loc) (t m : string) : heap :=
  <[record := <["message" := VStr m]>
                (<["title" := VStr t]> (default ∅ (h !! record)))]> h.

(** The instance and the record the constructor leaves in the heap. *)
Definition new_instance (api readOnly tp mp : value) (record : loc)
  : gmap string value :=
  <["data" := VObj record]>
    (<["messagePlaceholder" := or_else mp (VStr DEFAULT_MESSAGE_PLACEHOLDER)]>
       (<["titlePlaceholder" := or_else tp (VStr DEFAULT_TITLE_PLACEHOLDER)]>
          (<["readOnly" := readOnly]> (<["api" := api]> ∅)))).

Definition new_record (t m : value) : gmap string value :=
  <["message" := or_else m (VStr "")]> (<["title" := or_else t (VStr "")]> ∅).

Definition constructed (h : heap) (arg : value) (record : loc) : widget :=
  let data := prop_of h arg "data" in
  let config := prop_of h arg "config" in
  Widget (prop_of h arg "api") (prop_of h arg "readOnly")
         (or_else (prop_of h config "titlePlaceholder")
                  (VStr DEFAULT_TITLE_PLACEHOLDER))
         (or_else (prop_of h config "messagePlaceholder")
                  (VStr DEFAULT_MESSAGE_PLACEHOLDER))
         record
         (or_else (prop_of h data "title") (VStr ""))
         (or_else (prop_of h data "message") (VStr "")).

(** A value ToBoolean takes to false, or a string. *)
Definition string_or_falsy (v : value) : bool :=
  is_string v || negb (truthy v).

(** The record of the instance at [this] has both fields, both strings. *)
Definition record_strings (h : heap) (this : loc) : Prop :=
  ∃ record t m,
    field h this "data" = Some (VObj record)
    ∧ field h record "title" = Some (VStr t)
    ∧ field h record "message" = Some (VStr m).

(** Some descendant of [e] carries the class [cls]. *)
Definition has_descendant (cls : string) (e : element) : Prop :=
  ∃ d, d ∈ descendants e ∧ has_class cls d = true.

(** A computation that leaves the heap as it found it, whether it returns
    or throws. *)
Definition reads_only {A} (m : M A) : Prop :=
  ∀ st, st_heap (snd (m st)) = st_heap st.

(** ** Example states *)

(** The editor's [api] object at reference 1, with its [styles] at 2. *)
Definition host_heap : heap :=
  <[2%positive := <["input" := VStr "cdx-input"]>
                    (<["block" := VStr "cdx-block"]> ∅)]>
    (<[1%positive := <["styles" := VObj 2%positive]> ∅]> ∅).

(** The heap just before [new Idea({ data, config, api, readOnly })]: the
    [data] object at 3, the [config] object at 4, the argument at 5. *)
Definition example_heap (data config : gmap string value) (readOnly : value)
  : heap :=
  <[5%positive := <["readOnly" := readOnly]>
                    (<["api" := VObj 1%positive]>
                       (<["config" := VObj 4%positive]>
                          (<["data" := VObj 3%positive]> ∅)))]>
    (<[4%positive := config]> (<[3%positive := data]> host_heap)).

Definition example_state (data config : gmap string value) (readOnly : value)
  : state :=
  State (example_heap data config readOnly) 0.

Definition example_arg : value := VObj 5%positive.

Definition data_A_B : gmap string value :=
  <["message" := VStr "B"]> (<["title" := VStr "A"]> ∅).

(** The heap just before [new Idea({ api, readOnly: false })]. *)
Definition heap_without_config : heap :=
  <[3%positive := <["readOnly" := VBool false]>
                    (<["api" := VObj 1%positive]> ∅)]> host_heap.

Definition data_number_title : gmap string value :=
  <["title" := VNum 42]> ∅.

Definition data_A_number : gmap string value :=
  <["message" := VNum 42]> (<["title" := VStr "A"]> ∅).

Definition data_falsy : gmap string value :=
  <["message" := VNull]> (<["title" := VNum 0]> ∅).

Definition config_empty_strings : gmap string value :=
  <["messagePlaceholder" := VStr ""]> (<["titlePlaceholder" := VStr ""]> ∅).

(** The instance [new Idea({ data: {title: "A", message: "B"}, config: {},
    api, readOnly })] leaves at reference 6, its record at 7. *)
Definition widget_A_B_state (readOnly : value) : state :=
  snd (constructor example_arg (example_state data_A_B ∅ readOnly)).

Definition widget_A_B (readOnly : value) : widget :=
  Widget (VObj 1%positive) readOnly (VStr "Title") (VStr "Message")
         7%positive (VStr "A") (VStr "B").

(** A [div] without children. *)
Definition empty_div : element := Element "div" [] CE_inherit ∅ ∅ [].

(** An element as the editor hands it back after the user typed: the
    regions hold the text [Idea] and the text [x < y]. *)
Definition edited_title : element :=
  Element "div" ["cdx-input"; "cdx-idea__title"] CE_true
          (<["placeholder" := "Title"]> ∅) ∅ [Text "Idea"].

Definition edited_message : element :=
  Element "div" ["cdx-input"; "cdx-idea__message"] CE_true
          (<["placeholder" := "Message"]> ∅) ∅ [Text "x < y"].

Definition edited_element : element :=
  Element "div" ["cdx-block"; "cdx-idea"] CE_inherit ∅ ∅
          [Elem edited_title; Elem edited_message].

Definition data_markup : gmap string value :=
  <["message" := VStr "B"]> (<["title" := VStr "a>b"]> ∅).

(** ** The rest of the class *)

(** [static get sanitize()]: the object literal
    [{ title: {}, message: {} }], built anew at every access, the outer
    object first and then the two rule objects in order. *)
Definition sanitize : M loc :=
  bind (alloc ∅) (fun config =>
  bind (alloc ∅) (fun title =>
  bind (set_prop config "title" (VObj title)) (fun _ =>
  bind (alloc ∅) (fun message =>
  bind (set_prop config "message" (VObj message)) (fun _ =>
  ret config))))).

(** The calls the editor makes on an instance once it is built. *)
Inductive call :=
| CallRender
| CallSave (ideaElement : element).

(** The state after one call, whether the call returned or threw. *)
Definition after_call {browser : Browser} (this : loc) (st : state)
           (c : call) : state :=
  match c with
  | CallRender => snd (render this st)
  | CallSave e => snd (save this e st)
  end.

(** The state after a sequence of calls, a call that throws not ending
    the sequence. *)
Definition after_calls {browser : Browser} (this : loc) (calls : list call)
           (st : state) : state :=
  foldl (after_call this) st calls.

(** The number of [render] calls in a sequence. *)
Fixpoint renders (calls : list call) : nat :=
  match calls with
  | [] => 0
  | CallRender :: r => S (renders r)
  | CallSave _ :: r => renders r
  end.

(** The class list [classList.add] makes of the tokens [a] and [b], in an
    element that had none. *)
Definition two_classes (a b : string) : list string :=
  if decide (a = b) then [a] else [a; b].

(** ** More example states *)

(** The heap just before [new Idea({ data, config, api: {}, readOnly })]:
    the [api] object at 1 has no [styles]. *)
Definition heap_bare_api (data config : gmap string value) : heap :=
  <[1%positive := ∅]> (example_heap data config (VBool false)).

(** The same with the [styles] object at 2 holding [block] and [input]. *)
Definition heap_with_styles (block input : value) : heap :=
  <[2%positive := <["input" := input]> (<["block" := block]> ∅)]>
    (example_heap data_A_B ∅ (VBool false)).

(** A [data] object with a field the tool does not know. *)
Definition data_with_extra : gmap string value :=
  <["author" := VStr "me"]> data_A_B.

Definition config_placeholders : gmap string value :=
  <["messagePlaceholder" := VStr "Say more"]>
    (<["titlePlaceholder" := VStr "Name it"]> ∅).

(** A second edited element: the regions hold [Plan] and [Step one]. *)
Definition edited_again : element :=
  Element "div" ["cdx-block"; "cdx-idea"] CE_inherit ∅ ∅
          [Elem (Element "div" ["cdx-input"; "cdx-idea__title"] CE_true
                         (<["placeholder" := "Title"]> ∅) ∅ [Text "Plan"]);
           Elem (Element "div" ["cdx-input"; "cdx-idea__message"] CE_true
                         (<["placeholder" := "Message"]> ∅) ∅
                         [Text "Step one"])].

(** The same with a [styles] object that holds neither. *)
Definition heap_empty_styles : heap :=
  <[2%positive := ∅]> (example_heap data_A_B ∅ (VBool false)).

(** The state [new Idea(...)] leaves when run on the argument at 5 in the
    heap [h]: the instance is at 6, its record at 7. *)
Definition built (h : heap) : state :=
  snd (constructor example_arg (State h 0)).

(** A sequence of calls: render, save what the user typed, save an
    element without regions, render again. *)
Definition example_calls : list call :=
  [CallRender; CallSave edited_element; CallSave empty_div; CallRender].

(** * Proofs *)

(** ** The monad and the heap *)

Section Steps.

Context {A B : Type}.

Lemma bind_ok (m : M A) (k : A → M B) st a st' :
  m st = (Ok a, st') → bind m k st = k a st'.
Proof. intros E. unfold bind. by rewrite E. Qed.

Lemma bind_throw (m : M A) (k : A → M B) st e st' :
  m st = (Throw e, st') → bind m k st = (Throw e, st').
Proof. intros E. unfold bind. by rewrite E. Qed.

End Steps.

Lemma get_prop_read v k st :
  nullish v = false →
  get_prop v k st = (Ok (prop_of (st_heap st) v k), st).
Proof. by destruct v. Qed.

Lemma get_prop_field l k v st :
  field (st_heap st) l k = Some v → get_prop (VObj l) k st = (Ok v, st).
Proof. intros E. unfold get_prop. by rewrite E. Qed.

Lemma get_prop_nullish v k st :
  nullish v = true → get_prop v k st = (Throw TypeError, st).
Proof. by destruct v. Qed.

Lemma set_prop_at l k v o h n :
  h !! l = Some o →
  set_prop l k v (State h n) = (Ok tt, State (<[l := <[k := v]> o]> h) n).
Proof. intros E. unfold set_prop. simpl. by rewrite E. Qed.

Lemma prop_of_insert_ne h l o v k :
  allocated h v → l ∉ dom h → prop_of (<[l := o]> h) v k = prop_of h v k.
Proof.
  destruct v as [| | | | | |l']; try done.
  intros Hin Hout. unfold prop_of, field.
  apply elem_of_dom in Hin.
  rewrite lookup_insert_ne; [done | set_solver].
Qed.

Lemma prop_of_allocated h v k :
  nullish (prop_of h v k) = false → allocated h v.
Proof.
  destruct v as [| | | | | |l]; try done.
  unfold prop_of, field. simpl.
  destruct (h !! l) as [o|] eqn:E; [| done].
  intros _. by exists o.
Qed.

(** ** The constructor *)

Section Constructor.

Context {browser : Browser}.

(** The constructor on an argument whose [data] and [config] can be read
    from: the instance and the record are two new objects, nothing else
    in the heap changes, and no element is created. *)
Lemma constructor_spec st arg :
  let h := st_heap st in
  let data := prop_of h arg "data" in
  let config := prop_of h arg "config" in
  nullish data = false → nullish config = false →
  allocated h data → allocated h config →
  ∃ this record,
    (this ∉ dom h) ∧ (record ∉ dom h) ∧ record ≠ this
    ∧ constructor arg st =
        (Ok this,
         State (<[record := new_record (prop_of h data "title")
                                       (prop_of h data "message")]>
                  (<[this := new_instance (prop_of h arg "api")
                               (prop_of h arg "readOnly")
                               (prop_of h config "titlePlaceholder")
                               (prop_of h config "messagePlaceholder")
                               record]> h))
               (st_created st)).
Proof.
  destruct st as [h n]. simpl. intros Hd Hc Had Hac.
  pose proof (prop_of_allocated _ _ _ Hd) as Harg.
  set (this := fresh (dom h)).
  assert (Hthis : this ∉ dom h) by apply is_fresh.
  set (h1 := <[this := (∅ : gmap string value)]> h).
  set (record := fresh (dom h1)).
  assert (Hrec1 : record ∉ dom h1) by apply is_fresh.
  assert (Hrec : (record ∉ dom h) ∧ record ≠ this).
  { unfold h1 in Hrec1. rewrite dom_insert_L in Hrec1. set_solver. }
  destruct Hrec as [Hrec Hne].
  exists this, record. repeat split; try done.
  assert (Hnarg : nullish arg = false) by (by destruct arg).
  assert (Hread : ∀ o v k, allocated h v →
            prop_of (<[this := o]> h) v k = prop_of h v k).
  { intros. by apply prop_of_insert_ne. }
  unfold constructor.
  erewrite bind_ok; [| reflexivity]. fold this. simpl.
  do 4 (erewrite bind_ok; [| by apply get_prop_read]). simpl.
  rewrite !Hread by done.
  erewrite bind_ok; [| by apply set_prop_at, lookup_insert_eq].
  rewrite insert_insert_eq.
  erewrite bind_ok; [| by apply set_prop_at, lookup_insert_eq].
  rewrite insert_insert_eq.
  erewrite bind_ok; [| by apply get_prop_read]. simpl.
  rewrite Hread by done.
  erewrite bind_ok; [| by apply set_prop_at, lookup_insert_eq].
  rewrite insert_insert_eq.
  erewrite bind_ok; [| by apply get_prop_read]. simpl.
  rewrite Hread by done.
  erewrite bind_ok; [| by apply set_prop_at, lookup_insert_eq].
  rewrite insert_insert_eq.
  do 2 (erewrite bind_ok; [| by apply get_prop_read]). simpl.
  rewrite !Hread by done.
  erewrite bind_ok; [| reflexivity]. simpl.
  rewrite dom_insert_L. replace (fresh ({[this]} ∪ dom h)) with record
    by (unfold record, h1; by rewrite dom_insert_L).
  erewrite bind_ok;
    [| apply set_prop_at; rewrite lookup_insert_ne by done;
       apply lookup_insert_eq].
  unfold ret. rewrite (insert_insert_ne _ this record) by done.
  by rewrite insert_insert_eq.
Qed.

End Constructor.

(** ** Rendering *)

Section Render.

Context {browser : Browser}.

Lemma CSS_spec st this w block input :
  widget_at (st_heap st) this w →
  host_api (st_heap st) (w_api w) block input →
  CSS this st =
    (Ok (Css (VStr block) "cdx-idea" "cdx-idea__title" (VStr input)
             "cdx-idea__message"), st).
Proof.
  intros (Hapi & _) (la & ls & Ela & Hst & Hb & Hi & _).
  rewrite Ela in Hapi. unfold CSS.
  erewrite bind_ok; [| by apply get_prop_field].
  erewrite bind_ok; [| by apply get_prop_field].
  erewrite bind_ok; [| by apply get_prop_field].
  erewrite bind_ok; [| by apply get_prop_field].
  erewrite bind_ok; [| by apply get_prop_field].
  erewrite bind_ok; [| by apply get_prop_field].
  done.
Qed.

Lemma check_tokens_ok tokens st :
  forallb class_token tokens = true → check_tokens tokens st = (Ok tt, st).
Proof.
  induction tokens as [|t r IH]; [done |].
  simpl. unfold class_token at 1. intros H.
  apply andb_prop in H as [H Hr]. apply andb_prop in H as [H1 H2].
  apply negb_true_iff in H1, H2. rewrite H1, H2. by apply IH.
Qed.

Lemma createElement_valid tag st :
  valid_element_name tag = true →
  createElement tag st =
    (Ok (Element (lowercase tag) [] CE_inherit ∅ ∅ []),
     State (st_heap st) (S (st_created st))).
Proof. intros Hv. unfold createElement. by rewrite Hv. Qed.

Lemma valid_element_name_div : valid_element_name "div" = true.
Proof. by apply valid_element_name_simple. Qed.

Lemma _make_named tag names attributes h n :
  valid_element_name tag = true →
  forallb class_token (to_string <$> names) = true →
  _make tag (ClassArray names) attributes (State h n) =
    set_attributes
      (Element (lowercase tag) (foldl append_token [] (to_string <$> names))
               CE_inherit ∅ ∅ [])
      attributes (State h (S n)).
Proof.
  intros Hv Hok. unfold _make.
  erewrite bind_ok; [| by apply createElement_valid].
  erewrite bind_ok; [done |].
  unfold classList_add. erewrite bind_ok; [| by apply check_tokens_ok].
  done.
Qed.

Lemma _make_array names attributes h n :
  forallb class_token (to_string <$> names) = true →
  _make "div" (ClassArray names) attributes (State h n) =
    set_attributes
      (Element "div" (foldl append_token [] (to_string <$> names))
               CE_inherit ∅ ∅ [])
      attributes (State h (S n)).
Proof.
  intros Hok. by rewrite _make_named by (done || apply valid_element_name_div).
Qed.

Lemma region_attributes tag cl ro content st :
  set_attributes (Element tag cl CE_inherit ∅ ∅ [])
    [("contentEditable", negate ro); ("innerHTML", content)] st =
  (Ok (Element tag cl (if truthy ro then CE_false else CE_true) ∅ ∅
               (parseHTML (markup content))), st).
Proof. unfold negate. by destruct (truthy ro), content. Qed.

(** [render] on an instance in a host: the element it returns, the heap
    left as it was, three elements created. *)
Lemma render_spec st this w block input :
  widget_at (st_heap st) this w →
  host_api (st_heap st) (w_api w) block input →
  render this st =
    (Ok (rendered w block input),
     State (st_heap st) (3 + st_created st)).
Proof.
  intros Hw Hh.
  pose proof (CSS_spec st this w block input Hw Hh) as Hcss.
  destruct Hh as (la & ls & Ela & Hst & Hb & Hi & Tb & Ti).
  destruct Hw as (Hapi & Hro & Htp & Hmp & Hdata & Ht & Hm).
  destruct st as [h n]. simpl in *.
  assert (Hcss' : ∀ k, CSS this (State h k) =
    (Ok (Css (VStr block) "cdx-idea" "cdx-idea__title" (VStr input)
             "cdx-idea__message"), State h k)).
  { intros k. apply (CSS_spec (State h k) this w block input).
    - by repeat split.
    - by exists la, ls. }
  unfold render.
  do 2 (erewrite bind_ok; [| by apply Hcss']). simpl.
  erewrite bind_ok;
    [| rewrite _make_array; [reflexivity | by simpl; rewrite Tb]].
  do 2 (erewrite bind_ok; [| by apply Hcss']). simpl.
  do 3 (erewrite bind_ok; [| by apply get_prop_field]).
  erewrite bind_ok;
    [| rewrite _make_array;
       [apply region_attributes | by simpl; rewrite Ti]].
  do 2 (erewrite bind_ok; [| by apply Hcss']). simpl.
  do 3 (erewrite bind_ok; [| by apply get_prop_field]).
  erewrite bind_ok;
    [| rewrite _make_array;
       [apply region_attributes | by simpl; rewrite Ti]].
  do 2 (erewrite bind_ok; [| by apply get_prop_field]).
  done.
Qed.

End Render.

(** ** Saving *)

Section Save.

Context {browser : Browser}.

(** [save] on an instance in a host, for any element: what it returns and
    the state it leaves, by what the two lookups find. *)
Lemma save_spec st this w block input e :
  widget_at (st_heap st) this w →
  host_api (st_heap st) (w_api w) block input →
  save this e st =
    match first_with_class "cdx-idea__title" e,
          first_with_class "cdx-idea__message" e with
    | Some t, Some m =>
        (Ok (VObj (w_data w)),
         State (saved_heap (st_heap st) (w_data w) (innerHTML t)
                           (innerHTML m))
               (st_created st))
    | _, _ => (Throw TypeError, st)
    end.
Proof.
  intros Hw Hh.
  pose proof (CSS_spec st this w block input Hw Hh) as Hcss.
  destruct Hw as (Hapi & Hro & Htp & Hmp & Hdata & Ht & Hm).
  unfold save.
  erewrite bind_ok; [| exact Hcss].
  erewrite bind_ok; [| reflexivity].
  erewrite bind_ok; [| exact Hcss].
  erewrite bind_ok; [| reflexivity].
  erewrite bind_ok; [| by apply get_prop_field].
  destruct (first_with_class "cdx-idea__title" e) as [t|];
    [| reflexivity].
  erewrite bind_ok; [| reflexivity].
  destruct (first_with_class "cdx-idea__message" e) as [m|];
    [| reflexivity].
  erewrite bind_ok; [| reflexivity].
  reflexivity.
Qed.

Lemma field_saved_heap h record t m l k :
  field (saved_heap h record t m) l k =
    if decide (l = record) then
      if decide (k = "message") then Some (VStr m)
      else if decide (k = "title") then Some (VStr t)
      else field h l k
    else field h l k.
Proof.
  unfold saved_heap, field.
  destruct (decide (l = record)) as [->|Hne].
  - rewrite lookup_insert_eq. simpl.
    destruct (decide (k = "message")) as [->|Hk1].
    + by rewrite lookup_insert_eq.
    + rewrite lookup_insert_ne by done.
      destruct (decide (k = "title")) as [->|Hk2].
      * by rewrite lookup_insert_eq.
      * rewrite lookup_insert_ne by done. by destruct (h !! record).
  - by rewrite lookup_insert_ne.
Qed.

Lemma field_saved_heap_other h record t m l k :
  l ≠ record ∨ (k ≠ "title" ∧ k ≠ "message") →
  field (saved_heap h record t m) l k = field h l k.
Proof.
  intros H. rewrite field_saved_heap.
  destruct (decide (l = record)) as [El|]; [| done].
  destruct H as [Hl|[Ht Hm]]; [done |].
  by rewrite !decide_False.
Qed.

Lemma dom_saved_heap h record t m o :
  h !! record = Some o → dom (saved_heap h record t m) = dom h.
Proof.
  intros E. unfold saved_heap. rewrite dom_insert_L.
  apply elem_of_dom_2 in E. apply subseteq_union_1_L.
  by apply singleton_subseteq_l.
Qed.

(** Writing to a record the strings it holds changes nothing. *)
Lemma saved_heap_same h record t m :
  field h record "title" = Some (VStr t) →
  field h record "message" = Some (VStr m) →
  saved_heap h record t m = h.
Proof.
  unfold field, saved_heap. intros Ht Hm.
  destruct (h !! record) as [o|] eqn:E; [| done].
  simpl in *. rewrite (insert_id o "title") by done.
  rewrite (insert_id o "message") by done.
  by apply insert_id.
Qed.

(** [save] keeps an instance an instance, and the host a host. *)
Lemma save_widget_at h this w t m :
  widget_at h this w →
  widget_at (saved_heap h (w_data w) t m) this
    (Widget (w_api w) (w_readOnly w) (w_titlePlaceholder w)
            (w_messagePlaceholder w) (w_data w) (VStr t) (VStr m)).
Proof.
  intros (Hapi & Hro & Htp & Hmp & Hdata & Ht & Hm).
  unfold widget_at. simpl.
  rewrite !field_saved_heap_other by (right; done).
  repeat split; try done.
  - rewrite field_saved_heap, decide_True by done. done.
  - rewrite field_saved_heap, decide_True by done. done.
Qed.

Lemma save_host_api h record t m api block input :
  host_api h api block input →
  host_api (saved_heap h record t m) api block input.
Proof.
  intros (la & ls & Ela & Hst & Hb & Hi & Tb & Ti).
  exists la, ls.
  rewrite !field_saved_heap_other by (right; done).
  done.
Qed.

End Save.

(** ** Finding the regions of a rendered element *)

Section Regions.

Context {browser : Browser}.

Lemma first_with_class_nodes cls e :
  first_with_class cls e = first_in_nodes cls (childNodes e).
Proof.
  destruct e as [tag cl ce ds ps ns]. simpl.
  induction ns as [|[s|c] r IH]; simpl; [done | done |].
  by rewrite IH.
Qed.

Lemma first_in_nodes_elem cls c r :
  first_in_nodes cls (Elem c :: r) =
    if has_class cls c then Some c
    else match first_in_nodes cls (childNodes c) with
         | Some d => Some d
         | None => first_in_nodes cls r
         end.
Proof. simpl. by rewrite first_with_class_nodes. Qed.

Lemma first_in_text_run cls s : first_in_nodes cls (text_run s) = None.
Proof. by destruct s. Qed.

Lemma elem_of_append_token cl t x :
  x ∈ append_token cl t ↔ x ∈ cl ∨ x = t.
Proof.
  unfold append_token. case_bool_decide as Hin.
  - split; [by left | intros [?| ->]; done].
  - rewrite elem_of_app, list_elem_of_singleton. done.
Qed.

Lemma has_class_region w input marker content placeholder cls :
  has_class cls (region w input marker content placeholder) =
    bool_decide (cls = input ∨ cls = marker).
Proof.
  unfold has_class, region. simpl. apply bool_decide_ext.
  rewrite !elem_of_append_token, elem_of_nil. tauto.
Qed.

Lemma first_title_rendered w block input :
  first_with_class "cdx-idea__title" (rendered w block input) =
    Some (title_region w input).
Proof.
  rewrite first_with_class_nodes. unfold rendered, childNodes.
  rewrite first_in_nodes_elem. unfold title_region at 1.
  rewrite has_class_region. rewrite bool_decide_eq_true_2; [done | by right].
Qed.

Lemma first_message_rendered w block input :
  input ≠ "cdx-idea__message" →
  first_in_nodes "cdx-idea__message" (parseHTML (markup (w_title w)))
    = None →
  first_with_class "cdx-idea__message" (rendered w block input) =
    Some (message_region w input).
Proof.
  intros Hin Hnone. rewrite first_with_class_nodes.
  unfold rendered, childNodes. rewrite first_in_nodes_elem.
  unfold title_region at 1. rewrite has_class_region.
  rewrite bool_decide_eq_false_2 by (intros [?|?]; done).
  unfold title_region at 1, region at 1, childNodes. rewrite Hnone.
  rewrite first_in_nodes_elem.
  unfold message_region at 1. rewrite has_class_region.
  rewrite bool_decide_eq_true_2; [done | by right].
Qed.

(** Text without markup characters parses to text and is written back
    as it stands. *)
Lemma literal_text_reads_back s :
  literal_text s = true →
  reads_back s ∧ ∀ cls, first_in_nodes cls (parseHTML s) = None.
Proof.
  unfold literal_text, reads_back. intros H.
  apply andb_prop in H as [Hp He]. apply String.eqb_eq in He.
  rewrite parseHTML_plain by done. split.
  - destruct s as [|c r]; [apply serializeHTML_nil |].
    simpl. rewrite serializeHTML_text; [done |].
    clear He. revert Hp. generalize (String c r). intros s.
    induction s as [|c' r' IH]; [done |]. simpl.
    intros H. apply andb_prop in H as [H Hr].
    apply andb_prop in H as [H _]. rewrite H. by apply IH.
  - intros cls. apply first_in_text_run.
Qed.

End Regions.

(** ** The lookup and the descendants *)

Section Lookup.

Lemma find_app {A} (f : A → bool) (l1 l2 : list A) :
  find f (l1 ++ l2) =
    match find f l1 with Some x => Some x | None => find f l2 end.
Proof.
  induction l1 as [|x l1 IH]; [done |]. simpl. by destruct (f x).
Qed.

Lemma descendants_nodes e : descendants e = descendants_of (childNodes e).
Proof.
  destruct e as [tag cl ce ds ps ns]. simpl.
  induction ns as [|[s|c] r IH]; simpl; [done | done |].
  by rewrite IH.
Qed.

(** [querySelector] answers with the first descendant, in document
    order, that carries the class. *)
Lemma first_with_class_find cls :
  ∀ e, first_with_class cls e = find (has_class cls) (descendants e).
Proof.
  fix IH 1. intros [tag cl ce ds ps ns]. simpl.
  induction ns as [|[s|c] r IHr]; simpl; [done | done |].
  destruct (has_class cls c); [done |].
  rewrite find_app, <- (IH c).
  destruct (first_with_class cls c); [done | apply IHr].
Qed.

Lemma first_with_class_none cls e :
  first_with_class cls e = None ↔
  ∀ d, d ∈ descendants e → has_class cls d = false.
Proof.
  rewrite first_with_class_find. split.
  - intros H d Hd. apply (find_none _ _ H). by apply list_elem_of_In.
  - intros H. destruct (find (has_class cls) (descendants e)) as [d|] eqn:E;
      [| done].
    apply find_some in E as [Hin Hc]. apply list_elem_of_In in Hin.
    rewrite (H d Hin) in Hc. done.
Qed.

Lemma first_with_class_some cls e d :
  first_with_class cls e = Some d →
  d ∈ descendants e ∧ has_class cls d = true.
Proof.
  rewrite first_with_class_find. intros E.
  apply find_some in E as [Hin Hc]. by rewrite list_elem_of_In.
Qed.

Lemma first_with_class_is_Some cls e :
  is_Some (first_with_class cls e) ↔ has_descendant cls e.
Proof.
  split.
  - intros [d Hd]. exists d. by apply first_with_class_some.
  - intros (d & Hin & Hc).
    destruct (first_with_class cls e) as [d'|] eqn:E; [by exists d' |].
    rewrite first_with_class_none in E. rewrite (E d Hin) in Hc. done.
Qed.

End Lookup.

(** ** Instances the constructor builds *)

Section Constructed.

Context {browser : Browser}.

Lemma field_insert_ne (h : heap) l l' o k :
  l ≠ l' → field (<[l := o]> h) l' k = field h l' k.
Proof. intros Hne. unfold field. by rewrite lookup_insert_ne. Qed.

Lemma field_insert_eq (h : heap) l (o : gmap string value) k :
  field (<[l := o]> h) l k = o !! k.
Proof. unfold field. by rewrite lookup_insert_eq. Qed.

Lemma field_dom (h : heap) l k v : field h l k = Some v → l ∈ dom h.
Proof.
  unfold field. destruct (h !! l) eqn:E; [| done].
  intros _. by eapply elem_of_dom_2.
Qed.

(** The constructor leaves an instance that holds what it was given,
    with the defaults filled in, and leaves the host's objects alone. *)
Lemma constructor_widget st arg :
  let h := st_heap st in
  let data := prop_of h arg "data" in
  let config := prop_of h arg "config" in
  nullish data = false → nullish config = false →
  allocated h data → allocated h config →
  ∃ this record st',
    constructor arg st = (Ok this, st')
    ∧ st_created st' = st_created st
    ∧ (∀ l k, l ∈ dom h → field (st_heap st') l k = field h l k)
    ∧ widget_at (st_heap st') this (constructed h arg record).
Proof.
  simpl. intros Hd Hc Had Hac.
  destruct (constructor_spec st arg Hd Hc Had Hac)
    as (this & record & Hthis & Hrec & Hne & Hrun).
  eexists this, record, _. split; [exact Hrun |]. simpl.
  split; [done |]. split.
  - intros l k Hl.
    rewrite !field_insert_ne; [done | set_solver | set_solver].
  - unfold widget_at, constructed. simpl.
    rewrite !(field_insert_ne _ record this) by done.
    rewrite !field_insert_eq. done.
Qed.

Lemma host_api_frame h h' api block input :
  (∀ l k, l ∈ dom h → field h' l k = field h l k) →
  host_api h api block input → host_api h' api block input.
Proof.
  intros Hsame (la & ls & Ela & Hst & Hb & Hi & Tb & Ti).
  exists la, ls.
  rewrite !Hsame by (by eapply field_dom). done.
Qed.

End Constructed.

(** * The claims *)

Section Construction.

Context {browser : Browser}.

(** C2.  Default substitution at construction: a [title] or [message]
    that [data] does not have is stored as the empty string, and a
    placeholder that [config] does not have is stored as ["Title"],
    respectively ["Message"]; so [data = {}] gives the record
    [{title: "", message: ""}] and [config = {}] gives the two default
    placeholders. *)
Theorem constructor_defaults st arg d c od oc :
  let h := st_heap st in
  prop_of h arg "data" = VObj d → h !! d = Some od →
  prop_of h arg "config" = VObj c → h !! c = Some oc →
  ∃ this record st',
    constructor arg st = (Ok this, st')
    ∧ field (st_heap st') this "data" = Some (VObj record)
    ∧ (od !! "title" = None →
       field (st_heap st') record "title" = Some (VStr ""))
    ∧ (od !! "message" = None →
       field (st_heap st') record "message" = Some (VStr ""))
    ∧ (oc !! "titlePlaceholder" = None →
       field (st_heap st') this "titlePlaceholder" = Some (VStr "Title"))
    ∧ (oc !! "messagePlaceholder" = None →
       field (st_heap st') this "messagePlaceholder"
         = Some (VStr "Message")).
Proof.
  simpl. intros Hd Hod Hc Hoc.
  destruct (constructor_widget st arg) as (this & record & st' & Hrun & _
    & _ & Hw).
  - by rewrite Hd.
  - by rewrite Hc.
  - rewrite Hd. simpl. by rewrite Hod.
  - rewrite Hc. simpl. by rewrite Hoc.
  - exists this, record, st'. split; [done |].
    destruct Hw as (_ & _ & Htp & Hmp & Hdata & Ht & Hm).
    unfold constructed in *. simpl in *. rewrite Hd in Ht, Hm.
    rewrite Hc in Htp, Hmp. unfold prop_of, field in Htp, Hmp, Ht, Hm.
    rewrite Hod in Ht, Hm. rewrite Hoc in Htp, Hmp. simpl in *.
    split; [done |].
    repeat split; intros E; rewrite E in *; done.
Qed.

(** C2, run: [new Idea({ data: {}, config: {}, api, readOnly: false })]. *)
Lemma constructor_defaults_witness :
  ∃ this record st',
    constructor example_arg (example_state ∅ ∅ (VBool false))
      = (Ok this, st')
    ∧ field (st_heap st') this "data" = Some (VObj record)
    ∧ field (st_heap st') record "title" = Some (VStr "")
    ∧ field (st_heap st') record "message" = Some (VStr "")
    ∧ field (st_heap st') this "titlePlaceholder" = Some (VStr "Title")
    ∧ field (st_heap st') this "messagePlaceholder"
        = Some (VStr "Message").
Proof.
  destruct (constructor_defaults (example_state ∅ ∅ (VBool false))
              example_arg 3%positive 4%positive ∅ ∅)
    as (this & record & st' & Hrun & Hdata & Ht & Hm & Htp & Hmp);
    [vm_compute; reflexivity ..|].
  exists this, record, st'.
  repeat split; [exact Hrun | exact Hdata | apply Ht | apply Hm
                 | apply Htp | apply Hmp]; reflexivity.
Defined.

(** C3, as the code has it.  Construction does not throw when the [data]
    and the [config] it is given are neither undefined nor null,
    whatever fields they have or lack and whatever [api] and [readOnly]
    are. *)
Theorem constructor_total st arg :
  nullish (prop_of (st_heap st) arg "data") = false →
  nullish (prop_of (st_heap st) arg "config") = false →
  ∃ this st', constructor arg st = (Ok this, st').
Proof.
  intros Hd Hc.
  assert (Hnarg : nullish arg = false) by (by destruct arg).
  unfold constructor.
  erewrite bind_ok; [| reflexivity].
  destruct arg as [| | | | | |a]; try done.
  unfold bind, get_prop, set_prop, alloc, ret. simpl.
  set (this := fresh (dom (st_heap st))).
  destruct (decide (a = this)) as [->|Hne].
  - exfalso. unfold prop_of, field in Hd.
    rewrite (not_elem_of_dom_1 (st_heap st) this) in Hd; [done |].
    apply is_fresh.
  - unfold field. rewrite !lookup_insert_ne by done.
    unfold prop_of, field in Hd, Hc.
    destruct (st_heap st !! a) as [o|]; [| done]. simpl in *.
    destruct (default VUndefined (o !! "config")); try done;
      destruct (default VUndefined (o !! "data")); try done;
      eexists _, _; reflexivity.
Qed.

(** The other way round: with the argument, its [data] or its [config]
    undefined or null, construction throws a TypeError. *)
Lemma constructor_throws st arg :
  nullish arg = true
  ∨ nullish (prop_of (st_heap st) arg "data") = true
  ∨ nullish (prop_of (st_heap st) arg "config") = true →
  fst (constructor arg st) = Throw TypeError.
Proof.
  intros H. unfold constructor.
  erewrite bind_ok; [| reflexivity].
  destruct arg as [| | | | | |a]; try done;
    try (destruct H as [H|[H|H]]; done).
  destruct H as [H|[H|H]]; [done | |];
    unfold bind, get_prop, set_prop, alloc, ret; simpl;
    set (this := fresh (dom (st_heap st)));
    unfold prop_of, field in H; unfold field;
    (destruct (decide (a = this)) as [->|Hne];
     [ rewrite lookup_insert_eq; simpl; rewrite !lookup_empty; done
     | rewrite !lookup_insert_ne by done;
       destruct (st_heap st !! a) as [o|]; simpl in *; [| done];
       destruct (default VUndefined (o !! "config")); try done;
       destruct (default VUndefined (o !! "data")); try done ]).
Qed.

Lemma constructor_total_witness :
  ∃ this st',
    constructor example_arg (example_state ∅ ∅ VUndefined) = (Ok this, st').
Proof.
  apply (constructor_total (example_state ∅ ∅ VUndefined) example_arg);
    vm_compute; reflexivity.
Defined.

(** C3, as stated, fails: [new Idea({ api, readOnly: false })] throws a
    TypeError at [config.titlePlaceholder]. *)
Lemma constructor_throws_without_config :
  fst (constructor (VObj 3%positive) (State heap_without_config 0))
    = Throw TypeError.
Proof. vm_compute. reflexivity. Qed.

End Construction.

Section ReadsOnly.

Context {browser : Browser}.

Lemma reads_only_ret {A} (a : A) : reads_only (ret a).
Proof. done. Qed.

Lemma reads_only_throw {A} e : reads_only (@throw A e).
Proof. done. Qed.

Lemma reads_only_bind {A B} (m : M A) (k : A → M B) :
  reads_only m → (∀ a, reads_only (k a)) → reads_only (bind m k).
Proof.
  intros Hm Hk st. unfold bind. specialize (Hm st).
  destruct (m st) as [[a|e] st1]; simpl in *; [| done].
  by rewrite Hk.
Qed.

Lemma reads_only_get_prop v k : reads_only (get_prop v k).
Proof. intros st. by destruct v. Qed.

Lemma reads_only_CSS this : reads_only (CSS this).
Proof.
  unfold CSS.
  repeat (apply reads_only_bind; [apply reads_only_get_prop | intros ?]).
  apply reads_only_ret.
Qed.

Lemma reads_only_check_tokens tokens : reads_only (check_tokens tokens).
Proof.
  induction tokens as [|t r IH]; [done |]. simpl.
  destruct (String.eqb t ""); [done |]. by destruct (has_space t).
Qed.

Lemma reads_only_classList_add e tokens :
  reads_only (classList_add e tokens).
Proof.
  apply reads_only_bind; [apply reads_only_check_tokens | done].
Qed.

Lemma reads_only_set_attribute e name v :
  reads_only (set_attribute e name v).
Proof.
  unfold set_attribute, set_contentEditable.
  repeat (case_match; try done).
Qed.

Lemma reads_only_set_attributes attributes :
  ∀ e, reads_only (set_attributes e attributes).
Proof.
  induction attributes as [|[name v] r IH]; intros e; [done |].
  simpl. apply reads_only_bind; [apply reads_only_set_attribute | done].
Qed.

Lemma reads_only__make tag classNames attributes :
  reads_only (_make tag classNames attributes).
Proof.
  unfold _make. apply reads_only_bind; [| intros el].
  { intros st. unfold createElement. by destruct (valid_element_name tag). }
  apply reads_only_bind; [| intros ?; apply reads_only_set_attributes].
  destruct classNames as [names|name];
    [apply reads_only_classList_add |].
  destruct (truthy name); [apply reads_only_classList_add | done].
Qed.

(** [render] never writes to the heap, on any instance and in any host,
    whether it returns or throws. *)
Lemma reads_only_render this : reads_only (render this).
Proof.
  unfold render.
  repeat first
    [ apply reads_only_ret
    | apply reads_only_bind;
      [ first [ apply reads_only_CSS | apply reads_only_get_prop
              | apply reads_only__make ]
      | intros ? ] ].
Qed.

End ReadsOnly.

Section Coercion.

Context {browser : Browser}.

(** The values ToBoolean takes to false. *)
Lemma falsy_values :
  truthy VUndefined = false ∧ truthy VNull = false
  ∧ truthy (VBool false) = false ∧ truthy (VNum 0) = false
  ∧ truthy VNaN = false ∧ truthy (VStr "") = false.
Proof. done. Qed.

(** C9.  Falsy coercion at construction: whatever falsy value [data]
    holds as [title] or [message] (the empty string, 0, false, null,
    as well as none at all), the record stores the empty string; and a
    falsy [titlePlaceholder] or [messagePlaceholder] in [config], the
    empty string among them, is replaced by ["Title"], respectively
    ["Message"]. *)
Theorem constructor_falsy st arg d c od oc :
  let h := st_heap st in
  prop_of h arg "data" = VObj d → h !! d = Some od →
  prop_of h arg "config" = VObj c → h !! c = Some oc →
  ∃ this record st',
    constructor arg st = (Ok this, st')
    ∧ field (st_heap st') this "data" = Some (VObj record)
    ∧ (truthy (default VUndefined (od !! "title")) = false →
       field (st_heap st') record "title" = Some (VStr ""))
    ∧ (truthy (default VUndefined (od !! "message")) = false →
       field (st_heap st') record "message" = Some (VStr ""))
    ∧ (truthy (default VUndefined (oc !! "titlePlaceholder")) = false →
       field (st_heap st') this "titlePlaceholder" = Some (VStr "Title"))
    ∧ (truthy (default VUndefined (oc !! "messagePlaceholder")) = false →
       field (st_heap st') this "messagePlaceholder"
         = Some (VStr "Message")).
Proof.
  simpl. intros Hd Hod Hc Hoc.
  destruct (constructor_widget st arg) as (this & record & st' & Hrun & _
    & _ & Hw).
  - by rewrite Hd.
  - by rewrite Hc.
  - rewrite Hd. simpl. by rewrite Hod.
  - rewrite Hc. simpl. by rewrite Hoc.
  - exists this, record, st'. split; [done |].
    destruct Hw as (_ & _ & Htp & Hmp & Hdata & Ht & Hm).
    unfold constructed in *. simpl in *. rewrite Hd in Ht, Hm.
    rewrite Hc in Htp, Hmp. unfold prop_of, field in Htp, Hmp, Ht, Hm.
    rewrite Hod in Ht, Hm. rewrite Hoc in Htp, Hmp. simpl in *.
    split; [done |]. unfold or_else in *.
    repeat split; intros E; rewrite E in *; done.
Qed.

(** C9, run: [new Idea({ data: {title: 0, message: null},
    config: {titlePlaceholder: "", messagePlaceholder: ""}, ... })]. *)
Lemma constructor_falsy_witness :
  ∃ this record st',
    constructor example_arg
      (example_state data_falsy config_empty_strings (VBool false))
      = (Ok this, st')
    ∧ field (st_heap st') this "data" = Some (VObj record)
    ∧ field (st_heap st') record "title" = Some (VStr "")
    ∧ field (st_heap st') record "message" = Some (VStr "")
    ∧ field (st_heap st') this "titlePlaceholder" = Some (VStr "Title")
    ∧ field (st_heap st') this "messagePlaceholder"
        = Some (VStr "Message").
Proof.
  destruct (constructor_falsy
              (example_state data_falsy config_empty_strings (VBool false))
              example_arg 3%positive 4%positive data_falsy
              config_empty_strings)
    as (this & record & st' & Hrun & Hdata & Ht & Hm & Htp & Hmp);
    [vm_compute; reflexivity ..|].
  exists this, record, st'.
  repeat split; [exact Hrun | exact Hdata | apply Ht | apply Hm
                 | apply Htp | apply Hmp]; vm_compute; reflexivity.
Defined.

End Coercion.

Section Invariant.

Context {browser : Browser}.

Lemma or_else_defined v s : or_else v (VStr s) ≠ VUndefined.
Proof. unfold or_else. by destruct v as [| |[]| | | |]; simpl; try case_match. Qed.

Lemma or_else_string v s :
  string_or_falsy v = true → is_string (or_else v (VStr s)) = true.
Proof.
  unfold string_or_falsy, or_else.
  destruct v as [| |[]|n| |s'|]; simpl; try done.
  - by destruct (n =? 0).
  - by destruct (String.eqb s' "").
Qed.

(** C8, as the code has it.  After construction both fields of the
    record are there and neither is undefined; each field on its own is
    a string when the value supplied for it was a string or falsy (none
    at all included), the empty string when that value was falsy, and a
    truthy value is stored as it is, so one that is no string stays
    none.  After a [save] that returns, both are strings.  [render], and
    a [save] that throws, leave the heap as it was. *)
Theorem record_fields_invariant :
  (∀ st arg,
     let h := st_heap st in
     let data := prop_of h arg "data" in
     nullish data = false → nullish (prop_of h arg "config") = false →
     allocated h data → allocated h (prop_of h arg "config") →
     ∃ this record st' t m,
       constructor arg st = (Ok this, st')
       ∧ field (st_heap st') this "data" = Some (VObj record)
       ∧ field (st_heap st') record "title" = Some t
       ∧ field (st_heap st') record "message" = Some m
       ∧ t ≠ VUndefined ∧ m ≠ VUndefined
       ∧ (string_or_falsy (prop_of h data "title") = true →
          is_string t = true)
       ∧ (string_or_falsy (prop_of h data "message") = true →
          is_string m = true)
       ∧ (truthy (prop_of h data "title") = true →
          t = prop_of h data "title")
       ∧ (truthy (prop_of h data "message") = true →
          m = prop_of h data "message")
       ∧ (truthy (prop_of h data "title") = false → t = VStr "")
       ∧ (truthy (prop_of h data "message") = false → m = VStr ""))
  ∧ (∀ st this w block input e,
       widget_at (st_heap st) this w →
       host_api (st_heap st) (w_api w) block input →
       match save this e st with
       | (Ok _, st') => record_strings (st_heap st') this
       | (Throw _, st') => st' = st
       end)
  ∧ (∀ this st, st_heap (snd (render this st)) = st_heap st).
Proof.
  split; [| split].
  - simpl. intros st arg Hd Hc Had Hac.
    destruct (constructor_widget st arg Hd Hc Had Hac)
      as (this & record & st' & Hrun & _ & _ & Hw).
    destruct Hw as (_ & _ & _ & _ & Hdata & Ht & Hm). simpl in *.
    eexists this, record, st', _, _.
    do 4 (split; [done |]).
    split; [apply or_else_defined |].
    split; [apply or_else_defined |].
    split; [apply or_else_string |].
    split; [apply or_else_string |].
    unfold or_else.
    repeat split; intros E; by rewrite E.
  - intros st this w block input e Hw Hh.
    rewrite (save_spec st this w block input e Hw Hh).
    destruct (first_with_class "cdx-idea__title" e) as [t|]; [| done].
    destruct (first_with_class "cdx-idea__message" e) as [m|]; [| done].
    simpl.
    destruct (save_widget_at _ _ _ (innerHTML t) (innerHTML m) Hw)
      as (_ & _ & _ & _ & Hdata & Ht & Hm).
    by eexists _, _, _.
  - intros this st. apply reads_only_render.
Qed.

(** C8, as stated, fails: [new Idea({ data: {title: 42}, ... })] stores
    the number 42 as the title. *)
Lemma constructor_stores_number :
  let r := constructor example_arg
             (example_state data_number_title ∅ (VBool false)) in
  fst r = Ok 6%positive
  ∧ field (st_heap (snd r)) 6%positive "data" = Some (VObj 7%positive)
  ∧ field (st_heap (snd r)) 7%positive "title" = Some (VNum 42)
  ∧ is_string (VNum 42) = false.
Proof. vm_compute. done. Qed.

End Invariant.

(** C8, run: after [new Idea({ data: {title: "A", message: 42}, ... })]
    the title is the string [A], whatever the message is, and the message
    is the number 42. *)
Lemma record_fields_invariant_witness :
  ∃ this record st' t,
    constructor example_arg (example_state data_A_number ∅ (VBool false))
      = (Ok this, st')
    ∧ field (st_heap st') this "data" = Some (VObj record)
    ∧ field (st_heap st') record "title" = Some t
    ∧ is_string t = true
    ∧ field (st_heap st') record "message" = Some (VNum 42).
Proof.
  destruct (proj1 (@record_fields_invariant text_browser)
              (example_state data_A_number ∅ (VBool false)) example_arg)
    as (this & record & st' & t & m & Hrun & Hdata & Ht & Hm & _ & _
        & St & _ & _ & Km & _ & _).
  - vm_compute. reflexivity.
  - vm_compute. reflexivity.
  - vm_compute. eauto.
  - vm_compute. eauto.
  - exists this, record, st', t.
    do 3 (split; [assumption |]).
    split; [apply St; vm_compute; reflexivity |].
    rewrite Hm. f_equal. apply Km. vm_compute. reflexivity.
Defined.

Section Rendering.

Context {browser : Browser}.

(** C6.  Read-only propagation: [render] on an instance whose [readOnly]
    is true returns a container whose two children, the title region and
    the message region, both have [contentEditable] false; on an
    instance whose [readOnly] is false both have it true. *)
Theorem render_readOnly st this w block input b :
  widget_at (st_heap st) this w →
  host_api (st_heap st) (w_api w) block input →
  w_readOnly w = VBool b →
  ∃ container title message st',
    render this st = (Ok container, st')
    ∧ childNodes container = [Elem title; Elem message]
    ∧ has_class "cdx-idea__title" title = true
    ∧ has_class "cdx-idea__message" message = true
    ∧ contentEditable title = (if b then CE_false else CE_true)
    ∧ contentEditable message = (if b then CE_false else CE_true).
Proof.
  intros Hw Hh Hro.
  eexists _, (title_region w input), (message_region w input), _.
  split; [by apply render_spec |].
  split; [done |].
  unfold title_region, message_region. rewrite !has_class_region.
  rewrite !bool_decide_eq_true_2 by (by right).
  unfold region. simpl. rewrite Hro. done.
Qed.

(** C7.  [render] twice in a row: both calls return; what they return
    is equal in all an element holds, so in the classes, the placeholders
    and the content of the container and of the two regions; each call
    makes its element out of three elements that it creates itself; and
    the heap, with the record, the placeholders and the read-only flag in
    it, is after each call what it was before. *)
Theorem render_twice st this w block input :
  widget_at (st_heap st) this w →
  host_api (st_heap st) (w_api w) block input →
  ∃ first second st1 st2,
    render this st = (Ok first, st1)
    ∧ render this st1 = (Ok second, st2)
    ∧ first = second
    ∧ st_heap st1 = st_heap st ∧ st_heap st2 = st_heap st
    ∧ st_created st1 = (3 + st_created st)%nat
    ∧ st_created st2 = (3 + st_created st1)%nat.
Proof.
  intros Hw Hh.
  eexists _, _, _, _.
  split; [by apply render_spec |].
  split; [by apply render_spec |].
  done.
Qed.

End Rendering.

(** C6, run on the instance built with [readOnly: true]. *)
Lemma render_readOnly_witness :
  ∃ container title message st',
    @render text_browser 6%positive (widget_A_B_state (VBool true))
      = (Ok container, st')
    ∧ childNodes container = [Elem title; Elem message]
    ∧ has_class "cdx-idea__title" title = true
    ∧ has_class "cdx-idea__message" message = true
    ∧ contentEditable title = CE_false
    ∧ contentEditable message = CE_false.
Proof.
  apply (@render_readOnly text_browser (widget_A_B_state (VBool true))
           6%positive (widget_A_B (VBool true)) "cdx-block" "cdx-input" true).
  - repeat split; vm_compute; reflexivity.
  - exists 1%positive, 2%positive. repeat split; vm_compute; reflexivity.
  - reflexivity.
Defined.

(** C7, run on the instance built with [readOnly: false]. *)
Lemma render_twice_witness :
  ∃ first second st1 st2,
    @render text_browser 6%positive (widget_A_B_state (VBool false))
      = (Ok first, st1)
    ∧ @render text_browser 6%positive st1 = (Ok second, st2)
    ∧ first = second
    ∧ st_heap st1 = st_heap (widget_A_B_state (VBool false))
    ∧ st_heap st2 = st_heap (widget_A_B_state (VBool false))
    ∧ st_created st1 = 3%nat
    ∧ st_created st2 = (3 + st_created st1)%nat.
Proof.
  apply (@render_twice text_browser (widget_A_B_state (VBool false))
           6%positive (widget_A_B (VBool false)) "cdx-block" "cdx-input").
  - repeat split; vm_compute; reflexivity.
  - exists 1%positive, 2%positive. repeat split; vm_compute; reflexivity.
Defined.

Section Saving.

Context {browser : Browser}.

(** C4.  [save] on an element that has a descendant of the title class
    and one of the message class: it returns the reference to the record
    the instance holds, the very object and no new one, and the [title]
    and the [message] of that record are now the markup of the two
    regions, the first descendant of either class. *)
Theorem save_overwrites_record st this w block input e :
  widget_at (st_heap st) this w →
  host_api (st_heap st) (w_api w) block input →
  has_descendant "cdx-idea__title" e →
  has_descendant "cdx-idea__message" e →
  ∃ title message st',
    first_with_class "cdx-idea__title" e = Some title
    ∧ first_with_class "cdx-idea__message" e = Some message
    ∧ save this e st = (Ok (VObj (w_data w)), st')
    ∧ field (st_heap st') this "data" = Some (VObj (w_data w))
    ∧ field (st_heap st') (w_data w) "title"
        = Some (VStr (innerHTML title))
    ∧ field (st_heap st') (w_data w) "message"
        = Some (VStr (innerHTML message))
    ∧ dom (st_heap st') = dom (st_heap st).
Proof.
  intros Hw Hh Ht Hm.
  apply first_with_class_is_Some in Ht as [title Ht].
  apply first_with_class_is_Some in Hm as [message Hm].
  rewrite (save_spec st this w block input e Hw Hh), Ht, Hm.
  eexists title, message, _. do 3 (split; [done |]). simpl.
  destruct (save_widget_at _ _ _ (innerHTML title) (innerHTML message) Hw)
    as (_ & _ & _ & _ & Hdata & Hft & Hfm). simpl in *.
  repeat split; try done.
  destruct Hw as (_ & _ & _ & _ & _ & Hrec & _).
  unfold field in Hrec.
  destruct (st_heap st !! w_data w) as [o|] eqn:E; [| done].
  by eapply dom_saved_heap.
Qed.

(** C5.  [save] on an element that has no descendant of the title class,
    or none of the message class, throws a TypeError, which nothing
    catches, and leaves the state, the record in it, as it was; and
    [save] returns exactly when the element has a descendant of either
    class. *)
Theorem save_faults_without_regions st this w block input e :
  widget_at (st_heap st) this w →
  host_api (st_heap st) (w_api w) block input →
  ((¬ has_descendant "cdx-idea__title" e
    ∨ ¬ has_descendant "cdx-idea__message" e) →
   save this e st = (Throw TypeError, st))
  ∧ ((∃ v st', save this e st = (Ok v, st')) ↔
     (has_descendant "cdx-idea__title" e
      ∧ has_descendant "cdx-idea__message" e)).
Proof.
  intros Hw Hh.
  rewrite (save_spec st this w block input e Hw Hh).
  rewrite <- !first_with_class_is_Some.
  destruct (first_with_class "cdx-idea__title" e) as [t|];
    destruct (first_with_class "cdx-idea__message" e) as [m|]; split.
  - intros [H|H]; exfalso; apply H; by eexists.
  - split; [intros _; split; by eexists | intros _; by eexists _, _].
  - done.
  - split; [by intros (? & ? & ?) | by intros [_ [? ?]]].
  - done.
  - split; [by intros (? & ? & ?) | by intros [[? ?] _]].
  - done.
  - split; [by intros (? & ? & ?) | by intros [[? ?] _]].
Qed.

(** C10.  The frame of [save]: when it returns, every property of every
    object other than [title] and [message] of the record is what it
    was, no object was added, no element was created; so the instance's
    placeholders, its read-only flag and its [api] reference, and the
    [api] object itself, are unchanged. *)
Theorem save_frame st this w block input e :
  widget_at (st_heap st) this w →
  host_api (st_heap st) (w_api w) block input →
  has_descendant "cdx-idea__title" e →
  has_descendant "cdx-idea__message" e →
  ∃ v st',
    save this e st = (Ok v, st')
    ∧ (∀ l k, l ≠ w_data w ∨ (k ≠ "title" ∧ k ≠ "message") →
              field (st_heap st') l k = field (st_heap st) l k)
    ∧ dom (st_heap st') = dom (st_heap st)
    ∧ st_created st' = st_created st
    ∧ field (st_heap st') this "titlePlaceholder"
        = Some (w_titlePlaceholder w)
    ∧ field (st_heap st') this "messagePlaceholder"
        = Some (w_messagePlaceholder w)
    ∧ field (st_heap st') this "readOnly" = Some (w_readOnly w)
    ∧ field (st_heap st') this "api" = Some (w_api w)
    ∧ host_api (st_heap st') (w_api w) block input.
Proof.
  intros Hw Hh Ht Hm.
  apply first_with_class_is_Some in Ht as [title Ht].
  apply first_with_class_is_Some in Hm as [message Hm].
  rewrite (save_spec st this w block input e Hw Hh), Ht, Hm.
  eexists _, _. split; [done |]. simpl.
  split; [intros l k Hlk; by apply field_saved_heap_other |].
  split.
  { destruct Hw as (_ & _ & _ & _ & _ & Hrec & _).
    unfold field in Hrec.
    destruct (st_heap st !! w_data w) as [o|] eqn:E; [| done].
    by eapply dom_saved_heap. }
  split; [done |].
  destruct (save_widget_at _ _ _ (innerHTML title) (innerHTML message) Hw)
    as (Hapi & Hro & Htp & Hmp & _). simpl in *.
  repeat split; try done. by apply save_host_api.
Qed.

End Saving.

Section RoundTrip.

Context {browser : Browser}.

(** [render] and then [save] on what it returned: the record comes back
    with each field as the browser reads its markup back. *)
Lemma save_after_render st this w block input :
  widget_at (st_heap st) this w →
  host_api (st_heap st) (w_api w) block input →
  input ≠ "cdx-idea__message" →
  first_in_nodes "cdx-idea__message" (parseHTML (markup (w_title w)))
    = None →
  bind (render this) (save this) st =
    (Ok (VObj (w_data w)),
     State (saved_heap (st_heap st) (w_data w)
              (serializeHTML (parseHTML (markup (w_title w))))
              (serializeHTML (parseHTML (markup (w_message w)))))
           (3 + st_created st)).
Proof.
  intros Hw Hh Hin Hnone.
  erewrite bind_ok; [| by apply render_spec].
  rewrite (save_spec _ this w block input); [| done | done].
  rewrite first_title_rendered, first_message_rendered by done.
  done.
Qed.

(** C1, as the code has it.  On an instance whose title and message are
    strings that the browser reads back as they were written, the title
    holding no element of the message class, [render] and then [save] on
    the element returned give back the reference to the instance's
    record and leave the heap, and so the record, as it was. *)
Theorem save_after_render_roundtrip st this w block input t m :
  widget_at (st_heap st) this w →
  host_api (st_heap st) (w_api w) block input →
  input ≠ "cdx-idea__message" →
  w_title w = VStr t → w_message w = VStr m →
  first_in_nodes "cdx-idea__message" (parseHTML t) = None →
  reads_back t → reads_back m →
  ∃ st',
    bind (render this) (save this) st = (Ok (VObj (w_data w)), st')
    ∧ st_heap st' = st_heap st
    ∧ field (st_heap st') this "data" = Some (VObj (w_data w))
    ∧ field (st_heap st') (w_data w) "title" = Some (VStr t)
    ∧ field (st_heap st') (w_data w) "message" = Some (VStr m).
Proof.
  intros Hw Hh Hin Et Em Hnone Rt Rm.
  rewrite (save_after_render st this w block input Hw Hh Hin);
    [| by rewrite Et].
  rewrite Et, Em. simpl. rewrite Rt, Rm.
  destruct Hw as (_ & _ & _ & _ & Hdata & Hft & Hfm).
  rewrite Et in Hft. rewrite Em in Hfm.
  rewrite saved_heap_same by done.
  by eexists.
Qed.

(** The round trip from the constructor on, for text without markup
    characters, in every browser and every host: the record that comes
    back holds the title and the message the instance was built with. *)
Lemma roundtrip_literal_text st arg block input t m :
  let h := st_heap st in
  let data := prop_of h arg "data" in
  nullish data = false → nullish (prop_of h arg "config") = false →
  allocated h data → allocated h (prop_of h arg "config") →
  host_api h (prop_of h arg "api") block input →
  input ≠ "cdx-idea__message" →
  prop_of h data "title" = VStr t → prop_of h data "message" = VStr m →
  literal_text t = true → literal_text m = true →
  ∃ this record st' st'',
    constructor arg st = (Ok this, st')
    ∧ bind (render this) (save this) st' = (Ok (VObj record), st'')
    ∧ field (st_heap st'') this "data" = Some (VObj record)
    ∧ field (st_heap st'') record "title" = Some (VStr t)
    ∧ field (st_heap st'') record "message" = Some (VStr m).
Proof.
  simpl. intros Hd Hc Had Hac Hh Hin Et Em Lt Lm.
  destruct (constructor_widget st arg Hd Hc Had Hac)
    as (this & record & st' & Hrun & _ & Hsame & Hw).
  pose proof (host_api_frame _ _ _ _ _ Hsame Hh) as Hh'.
  apply literal_text_reads_back in Lt as [Rt Nt].
  apply literal_text_reads_back in Lm as [Rm _].
  assert (Eto : or_else (VStr t) (VStr "") = VStr t).
  { unfold or_else. simpl. by destruct t. }
  assert (Emo : or_else (VStr m) (VStr "") = VStr m).
  { unfold or_else. simpl. by destruct m. }
  exists this, record, st', (State (st_heap st') (3 + st_created st')).
  split; [done |]. split.
  - rewrite (save_after_render st' this _ block input Hw Hh' Hin); simpl;
      rewrite ?Et, ?Em, ?Eto, ?Emo; simpl; [| done].
    rewrite Rt, Rm.
    destruct Hw as (_ & _ & _ & _ & _ & Hft & Hfm). simpl in *.
    rewrite Et, Eto in Hft. rewrite Em, Emo in Hfm.
    by rewrite saved_heap_same.
  - destruct Hw as (_ & _ & _ & _ & Hdata & Hft & Hfm). simpl in *.
    rewrite Et, Eto in Hft. rewrite Em, Emo in Hfm. done.
Qed.

(** The round trip changes a title that holds [>], in every browser. *)
Lemma roundtrip_escapes_gt st this w block input :
  widget_at (st_heap st) this w →
  host_api (st_heap st) (w_api w) block input →
  input ≠ "cdx-idea__message" →
  w_title w = VStr "a>b" →
  ∃ st',
    bind (render this) (save this) st = (Ok (VObj (w_data w)), st')
    ∧ field (st_heap st') (w_data w) "title" = Some (VStr "a&gt;b").
Proof.
  intros Hw Hh Hin Et.
  rewrite (save_after_render st this w block input Hw Hh Hin).
  - eexists. split; [done |]. simpl.
    rewrite field_saved_heap, decide_True by done. simpl.
    rewrite Et. simpl. rewrite (parseHTML_plain "a>b") by done.
    simpl. by rewrite serializeHTML_text.
  - rewrite Et. simpl. by rewrite (parseHTML_plain "a>b").
Qed.

End RoundTrip.

(** C1, run: the instance built with [{title: "A", message: "B"}] gets its
    record back from [save] after [render], with the heap as it was. *)
Lemma save_after_render_roundtrip_witness :
  ∃ st',
    bind (@render text_browser 6%positive) (@save text_browser 6%positive)
         (widget_A_B_state (VBool false)) = (Ok (VObj 7%positive), st')
    ∧ st_heap st' = st_heap (widget_A_B_state (VBool false))
    ∧ field (st_heap st') 6%positive "data" = Some (VObj 7%positive)
    ∧ field (st_heap st') 7%positive "title" = Some (VStr "A")
    ∧ field (st_heap st') 7%positive "message" = Some (VStr "B").
Proof.
  apply (@save_after_render_roundtrip text_browser
           (widget_A_B_state (VBool false)) 6%positive
           (widget_A_B (VBool false)) "cdx-block" "cdx-input" "A" "B").
  - repeat split; vm_compute; reflexivity.
  - exists 1%positive, 2%positive. repeat split; vm_compute; reflexivity.
  - vm_compute. discriminate.
  - reflexivity.
  - reflexivity.
  - reflexivity.
  - reflexivity.
  - reflexivity.
Defined.

(** C1, as stated, fails: the instance built with the title [a>b] has
    [a&gt;b] as its title after [render] and [save]. *)
Lemma roundtrip_changes_markup :
  let built := constructor example_arg
                 (example_state data_markup ∅ (VBool false)) in
  let saved := bind (@render text_browser 6%positive)
                    (@save text_browser 6%positive) (snd built) in
  fst built = Ok 6%positive
  ∧ field (st_heap (snd built)) 7%positive "title" = Some (VStr "a>b")
  ∧ fst saved = Ok (VObj 7%positive)
  ∧ field (st_heap (snd saved)) 7%positive "title" = Some (VStr "a&gt;b").
Proof. vm_compute. done. Qed.

(** C4, run: saving the edited element writes [Idea] and [x &lt; y] to
    the record at 7 and returns that reference. *)
Lemma save_overwrites_record_witness :
  ∃ st',
    @save text_browser 6%positive edited_element
      (widget_A_B_state (VBool false)) = (Ok (VObj 7%positive), st')
    ∧ field (st_heap st') 6%positive "data" = Some (VObj 7%positive)
    ∧ field (st_heap st') 7%positive "title" = Some (VStr "Idea")
    ∧ field (st_heap st') 7%positive "message" = Some (VStr "x &lt; y")
    ∧ dom (st_heap st') = dom (st_heap (widget_A_B_state (VBool false))).
Proof.
  destruct (@save_overwrites_record text_browser
              (widget_A_B_state (VBool false)) 6%positive
              (widget_A_B (VBool false)) "cdx-block" "cdx-input"
              edited_element)
    as (title & message & st' & Et & Em & Hrun & Hdata & Ht & Hm & Hdom).
  - repeat split; vm_compute; reflexivity.
  - exists 1%positive, 2%positive. repeat split; vm_compute; reflexivity.
  - exists edited_title. split; [| reflexivity].
    apply list_elem_of_In. vm_compute. auto.
  - exists edited_message. split; [| reflexivity].
    apply list_elem_of_In. vm_compute. auto.
  - vm_compute in Et. vm_compute in Em.
    injection Et as <-. injection Em as <-.
    exists st'. repeat split; assumption.
Defined.

(** C5, run: saving a [div] without children throws and changes nothing. *)
Lemma save_faults_without_regions_witness :
  @save text_browser 6%positive empty_div (widget_A_B_state (VBool false))
  = (Throw TypeError, widget_A_B_state (VBool false)).
Proof.
  apply (@save_faults_without_regions text_browser
           (widget_A_B_state (VBool false)) 6%positive
           (widget_A_B (VBool false)) "cdx-block" "cdx-input" empty_div).
  - repeat split; vm_compute; reflexivity.
  - exists 1%positive, 2%positive. repeat split; vm_compute; reflexivity.
  - left. intros (d & Hd & _). vm_compute in Hd. by apply elem_of_nil in Hd.
Defined.

(** C10, run: saving the edited element leaves the placeholders, the flag
    and the [api] of the instance at 6 as they were. *)
Lemma save_frame_witness :
  ∃ v st',
    @save text_browser 6%positive edited_element
      (widget_A_B_state (VBool false)) = (Ok v, st')
    ∧ field (st_heap st') 6%positive "titlePlaceholder" = Some (VStr "Title")
    ∧ field (st_heap st') 6%positive "messagePlaceholder"
        = Some (VStr "Message")
    ∧ field (st_heap st') 6%positive "readOnly" = Some (VBool false)
    ∧ field (st_heap st') 6%positive "api" = Some (VObj 1%positive).
Proof.
  destruct (@save_frame text_browser
              (widget_A_B_state (VBool false)) 6%positive
              (widget_A_B (VBool false)) "cdx-block" "cdx-input"
              edited_element)
    as (v & st' & Hrun & _ & _ & _ & Htp & Hmp & Hro & Hapi & _).
  - repeat split; vm_compute; reflexivity.
  - exists 1%positive, 2%positive. repeat split; vm_compute; reflexivity.
  - exists edited_title. split; [| reflexivity].
    apply list_elem_of_In. vm_compute. auto.
  - exists edited_message. split; [| reflexivity].
    apply list_elem_of_In. vm_compute. auto.
  - exists v, st'. repeat split; assumption.
Defined.

(** * Beyond the claims *)

(** ** Helpers *)

(** The getter [CSS] on any object: it throws when [this.api] or
    [this.api.styles] cannot be read from, and changes nothing. *)
Lemma CSS_run {browser : Browser} this st :
  CSS this st =
    if nullish (prop_of (st_heap st) (VObj this) "api")
       || nullish (prop_of (st_heap st)
                     (prop_of (st_heap st) (VObj this) "api") "styles")
    then (Throw TypeError, st)
    else (Ok (Css (prop_of (st_heap st)
                     (prop_of (st_heap st)
                        (prop_of (st_heap st) (VObj this) "api") "styles")
                     "block")
                  "cdx-idea" "cdx-idea__title"
                  (prop_of (st_heap st)
                     (prop_of (st_heap st)
                        (prop_of (st_heap st) (VObj this) "api") "styles")
                     "input")
                  "cdx-idea__message"), st).
Proof.
  unfold CSS.
  erewrite bind_ok; [| reflexivity].
  change (default VUndefined (field (st_heap st) this "api"))
    with (prop_of (st_heap st) (VObj this) "api").
  set (api := prop_of (st_heap st) (VObj this) "api").
  destruct (nullish api) eqn:Na; simpl.
  { erewrite bind_throw; [done | by apply get_prop_nullish]. }
  erewrite bind_ok; [| by apply get_prop_read].
  set (styles := prop_of (st_heap st) api "styles").
  destruct (nullish styles) eqn:Ns; simpl.
  { erewrite bind_throw; [done | by apply get_prop_nullish]. }
  erewrite bind_ok; [| by apply get_prop_read].
  erewrite bind_ok; [| reflexivity].
  change (default VUndefined (field (st_heap st) this "api")) with api.
  erewrite bind_ok; [| by apply get_prop_read].
  erewrite bind_ok; [| by apply get_prop_read].
  done.
Qed.

(** [save] on an instance, in any host and for any element. *)
Lemma save_run {browser : Browser} st this record e :
  field (st_heap st) this "data" = Some (VObj record) →
  save this e st =
    if nullish (prop_of (st_heap st) (VObj this) "api")
       || nullish (prop_of (st_heap st)
                     (prop_of (st_heap st) (VObj this) "api") "styles")
    then (Throw TypeError, st)
    else match first_with_class "cdx-idea__title" e,
               first_with_class "cdx-idea__message" e with
         | Some t, Some m =>
             (Ok (VObj record),
              State (saved_heap (st_heap st) record (innerHTML t)
                                (innerHTML m))
                    (st_created st))
         | _, _ => (Throw TypeError, st)
         end.
Proof.
  intros Hdata. unfold save.
  pose proof (CSS_run this st) as Hcss.
  destruct (nullish _ || nullish _).
  { erewrite bind_throw; [done | exact Hcss]. }
  erewrite bind_ok; [| exact Hcss].
  erewrite bind_ok; [| reflexivity].
  erewrite bind_ok; [| exact Hcss].
  erewrite bind_ok; [| reflexivity].
  erewrite bind_ok; [| by apply get_prop_field].
  destruct (first_with_class "cdx-idea__title" e) as [t|]; [| reflexivity].
  erewrite bind_ok; [| reflexivity].
  destruct (first_with_class "cdx-idea__message" e) as [m|]; [| reflexivity].
  erewrite bind_ok; [| reflexivity].
  reflexivity.
Qed.

(** The constructor returns when its argument, [data] and [config] can be
    read from. *)
Lemma constructor_returns st arg :
  nullish (prop_of (st_heap st) arg "data") = false →
  nullish (prop_of (st_heap st) arg "config") = false →
  ∃ this st', constructor arg st = (Ok this, st').
Proof.
  intros Hd Hc. unfold constructor.
  erewrite bind_ok; [| reflexivity].
  destruct arg as [| | | | | |a]; try done.
  unfold bind, get_prop, set_prop, alloc, ret. simpl.
  set (this := fresh (dom (st_heap st))).
  destruct (decide (a = this)) as [->|Hne].
  - exfalso. unfold prop_of, field in Hd.
    rewrite (not_elem_of_dom_1 (st_heap st) this) in Hd; [done |].
    apply is_fresh.
  - unfold field. rewrite !lookup_insert_ne by done.
    unfold prop_of, field in Hd, Hc.
    destruct (st_heap st !! a) as [o|]; [| done]. simpl in *.
    destruct (default VUndefined (o !! "config")); try done;
      destruct (default VUndefined (o !! "data")); try done;
      eexists _, _; reflexivity.
Qed.

(** The constructor, with the heap it leaves written out. *)
Lemma constructor_fresh st arg :
  let h := st_heap st in
  let data := prop_of h arg "data" in
  let config := prop_of h arg "config" in
  nullish data = false → nullish config = false →
  allocated h data → allocated h config →
  ∃ this record st',
    constructor arg st = (Ok this, st')
    ∧ h !! this = None ∧ h !! record = None ∧ record ≠ this
    ∧ st_created st' = st_created st
    ∧ st_heap st' =
        <[record := new_record (prop_of h data "title")
                               (prop_of h data "message")]>
          (<[this := new_instance (prop_of h arg "api")
                       (prop_of h arg "readOnly")
                       (prop_of h config "titlePlaceholder")
                       (prop_of h config "messagePlaceholder") record]> h)
    ∧ widget_at (st_heap st') this (constructed h arg record).
Proof.
  simpl. intros Hd Hc Had Hac.
  destruct (constructor_spec st arg Hd Hc Had Hac)
    as (this & record & Hthis & Hrec & Hne & Hrun).
  eexists this, record, _. split; [exact Hrun |]. simpl.
  apply not_elem_of_dom in Hthis, Hrec.
  do 5 (split; [done |]).
  unfold widget_at, constructed. simpl.
  rewrite !(field_insert_ne _ record this) by done.
  rewrite !field_insert_eq. done.
Qed.

Lemma host_api_constructed h this record oi orec api block input :
  h !! this = None → h !! record = None →
  host_api h api block input →
  host_api (<[record := orec]> (<[this := oi]> h)) api block input.
Proof.
  intros Hthis Hrec. apply host_api_frame. intros l k Hl.
  apply elem_of_dom in Hl as [o Hl].
  rewrite !field_insert_ne; [done | |]; intros ->; congruence.
Qed.

(** ** The constructor, further *)

(** X1.  When construction throws: it throws exactly when the argument,
    its [data] or its [config] is undefined or null, and what it throws
    then is a TypeError; otherwise it returns. *)
Theorem constructor_throws_exactly st arg :
  match fst (constructor arg st) with
  | Ok _ =>
      nullish arg = false
      ∧ nullish (prop_of (st_heap st) arg "data") = false
      ∧ nullish (prop_of (st_heap st) arg "config") = false
  | Throw e =>
      e = TypeError
      ∧ (nullish arg = true
         ∨ nullish (prop_of (st_heap st) arg "data") = true
         ∨ nullish (prop_of (st_heap st) arg "config") = true)
  end.
Proof.
  destruct (nullish (prop_of (st_heap st) arg "data")) eqn:Hd.
  { rewrite constructor_throws by auto. auto. }
  destruct (nullish (prop_of (st_heap st) arg "config")) eqn:Hc.
  { rewrite constructor_throws by auto. auto. }
  destruct (constructor_returns st arg Hd Hc) as (this & st' & ->).
  simpl. by destruct arg.
Qed.

(** X2.  Construction makes two new objects, the instance and its record,
    and writes to no object that was there before; nor does a [save]
    after it, whether that returns or throws.  So the [data] object the
    instance was built from is never written to. *)
Theorem constructor_and_save_spare_old_objects
        {browser : Browser} st arg e :
  let h := st_heap st in
  nullish (prop_of h arg "data") = false →
  nullish (prop_of h arg "config") = false →
  allocated h (prop_of h arg "data") →
  allocated h (prop_of h arg "config") →
  ∃ this record st',
    constructor arg st = (Ok this, st')
    ∧ h !! this = None ∧ h !! record = None ∧ record ≠ this
    ∧ field (st_heap st') this "data" = Some (VObj record)
    ∧ (∀ l, is_Some (h !! l) →
            st_heap st' !! l = h !! l
            ∧ st_heap (snd (save this e st')) !! l = h !! l).
Proof.
  simpl. intros Hd Hc Had Hac.
  destruct (constructor_fresh st arg Hd Hc Had Hac)
    as (this & record & st' & Hrun & Hthis & Hrec & Hne & _ & Hheap & Hw).
  exists this, record, st'. do 4 (split; [done |]).
  destruct Hw as (_ & _ & _ & _ & Hdata & _). simpl in Hdata.
  split; [done |]. intros l [o Hl].
  assert (Hold : st_heap st' !! l = st_heap st !! l).
  { rewrite Hheap. rewrite !lookup_insert_ne; [done | |]; intros ->;
      congruence. }
  split; [done |].
  rewrite (save_run st' this record e Hdata).
  destruct (nullish _ || nullish _); [done |].
  destruct (first_with_class "cdx-idea__title" e); [| done].
  destruct (first_with_class "cdx-idea__message" e); [| done].
  simpl. unfold saved_heap.
  rewrite lookup_insert_ne; [done |]. intros ->. congruence.
Qed.

(** X3.  A truthy [title] or [message] is stored as it is given, string
    or not, and so is a truthy placeholder. *)
Theorem constructor_keeps_truthy st arg d c od oc :
  let h := st_heap st in
  prop_of h arg "data" = VObj d → h !! d = Some od →
  prop_of h arg "config" = VObj c → h !! c = Some oc →
  ∃ this record st',
    constructor arg st = (Ok this, st')
    ∧ field (st_heap st') this "data" = Some (VObj record)
    ∧ (∀ v, od !! "title" = Some v → truthy v = true →
            field (st_heap st') record "title" = Some v)
    ∧ (∀ v, od !! "message" = Some v → truthy v = true →
            field (st_heap st') record "message" = Some v)
    ∧ (∀ v, oc !! "titlePlaceholder" = Some v → truthy v = true →
            field (st_heap st') this "titlePlaceholder" = Some v)
    ∧ (∀ v, oc !! "messagePlaceholder" = Some v → truthy v = true →
            field (st_heap st') this "messagePlaceholder" = Some v).
Proof.
  simpl. intros Hd Hod Hc Hoc.
  destruct (constructor_fresh st arg) as (this & record & st' & Hrun & _
    & _ & _ & _ & _ & Hw).
  - by rewrite Hd.
  - by rewrite Hc.
  - rewrite Hd. simpl. by rewrite Hod.
  - rewrite Hc. simpl. by rewrite Hoc.
  - exists this, record, st'. split; [done |].
    destruct Hw as (_ & _ & Htp & Hmp & Hdata & Ht & Hm).
    unfold constructed in *. simpl in *. rewrite Hd in Ht, Hm.
    rewrite Hc in Htp, Hmp. unfold prop_of, field in Htp, Hmp, Ht, Hm.
    rewrite Hod in Ht, Hm. rewrite Hoc in Htp, Hmp. simpl in *.
    split; [done |]. unfold or_else in *.
    repeat split; intros v E T; rewrite E in *; simpl in *;
      rewrite T in *; done.
Qed.

(** X4.  The record of a new instance has the two fields [title] and
    [message] and no other, whatever else [data] holds; the instance
    itself has its five properties and no other. *)
Theorem constructor_record_has_two_fields st arg :
  let h := st_heap st in
  nullish (prop_of h arg "data") = false →
  nullish (prop_of h arg "config") = false →
  allocated h (prop_of h arg "data") →
  allocated h (prop_of h arg "config") →
  ∃ this record st',
    constructor arg st = (Ok this, st')
    ∧ field (st_heap st') this "data" = Some (VObj record)
    ∧ (∀ k, is_Some (field (st_heap st') record k) ↔
            k = "title" ∨ k = "message")
    ∧ (∀ k, is_Some (field (st_heap st') this k) ↔
            k = "api" ∨ k = "readOnly" ∨ k = "titlePlaceholder"
            ∨ k = "messagePlaceholder" ∨ k = "data").
Proof.
  simpl. intros Hd Hc Had Hac.
  destruct (constructor_fresh st arg Hd Hc Had Hac)
    as (this & record & st' & Hrun & _ & _ & Hne & _ & Hheap & Hw).
  exists this, record, st'. split; [done |].
  destruct Hw as (_ & _ & _ & _ & Hdata & _). simpl in Hdata.
  split; [done |]. rewrite Hheap. split; intros k.
  - rewrite field_insert_eq. unfold new_record.
    rewrite !lookup_insert_is_Some, lookup_empty, is_Some_alt.
    intuition (subst; first [done | auto 10]).
  - rewrite field_insert_ne by done. rewrite field_insert_eq.
    unfold new_instance.
    rewrite !lookup_insert_is_Some, lookup_empty, is_Some_alt.
    intuition (subst; first [done | auto 10]).
Qed.

(** ** Rendering, further *)

Lemma two_classes_add a b : foldl append_token [] [a; b] = two_classes a b.
Proof.
  unfold two_classes, append_token. simpl.
  destruct (decide (a = b)) as [->|Hne].
  - rewrite bool_decide_eq_true_2; [done | apply list_elem_of_here].
  - rewrite bool_decide_eq_false_2; [done |].
    rewrite list_elem_of_singleton. congruence.
Qed.

(** [render] for whatever values [api.styles] holds as [block] and
    [input], as long as their strings are class tokens. *)
Lemma render_run {browser : Browser} st this w styles :
  widget_at (st_heap st) this w →
  prop_of (st_heap st) (w_api w) "styles" = styles →
  nullish styles = false →
  class_token (to_string (prop_of (st_heap st) styles "block")) = true →
  class_token (to_string (prop_of (st_heap st) styles "input")) = true →
  render this st =
    (Ok (rendered w (to_string (prop_of (st_heap st) styles "block"))
                  (to_string (prop_of (st_heap st) styles "input"))),
     State (st_heap st) (3 + st_created st)).
Proof.
  intros Hw Hst Hn Tb Ti.
  destruct Hw as (Hapi & Hro & Htp & Hmp & Hdata & Ht & Hm).
  destruct st as [h n]. simpl in *.
  assert (Hcss : ∀ k, CSS this (State h k) =
    (Ok (Css (prop_of h styles "block") "cdx-idea" "cdx-idea__title"
             (prop_of h styles "input") "cdx-idea__message"), State h k)).
  { intros k. rewrite CSS_run. cbn [st_heap].
    assert (Ea : prop_of h (VObj this) "api" = w_api w)
      by (unfold prop_of; by rewrite Hapi).
    rewrite !Ea, !Hst, Hn.
    replace (nullish (w_api w)) with false; [done |].
    destruct (w_api w); try done; by subst styles. }
  unfold render.
  do 2 (erewrite bind_ok; [| by apply Hcss]). simpl.
  erewrite bind_ok;
    [| rewrite _make_array; [reflexivity | by simpl; rewrite Tb]].
  do 2 (erewrite bind_ok; [| by apply Hcss]). simpl.
  do 3 (erewrite bind_ok; [| by apply get_prop_field]).
  erewrite bind_ok;
    [| rewrite _make_array;
       [apply region_attributes | by simpl; rewrite Ti]].
  do 2 (erewrite bind_ok; [| by apply Hcss]). simpl.
  do 3 (erewrite bind_ok; [| by apply get_prop_field]).
  erewrite bind_ok;
    [| rewrite _make_array;
       [apply region_attributes | by simpl; rewrite Ti]].
  do 2 (erewrite bind_ok; [| by apply get_prop_field]).
  done.
Qed.

(** A new instance in a host, rendered. *)
Lemma constructor_then_render {browser : Browser} st arg block input :
  let h := st_heap st in
  nullish (prop_of h arg "data") = false →
  nullish (prop_of h arg "config") = false →
  allocated h (prop_of h arg "data") →
  allocated h (prop_of h arg "config") →
  host_api h (prop_of h arg "api") block input →
  ∃ this record st',
    constructor arg st = (Ok this, st')
    ∧ render this st' =
        (Ok (rendered (constructed h arg record) block input),
         State (st_heap st') (3 + st_created st)).
Proof.
  simpl. intros Hd Hc Had Hac Hh.
  destruct (constructor_fresh st arg Hd Hc Had Hac)
    as (this & record & st' & Hrun & Hthis & Hrec & _ & Hn & Hheap & Hw).
  exists this, record, st'. split; [done |].
  rewrite <- Hn. apply render_spec; [done |].
  rewrite Hheap. by apply host_api_constructed.
Qed.

(** X5.  What [readOnly] does, for any value: the two regions of the
    element [render] returns for a new instance are not editable when the
    [readOnly] the constructor was given is truthy, and editable when it
    is falsy, so also when none was given. *)
Theorem render_editable_by_truthiness
        {browser : Browser} st arg block input :
  let h := st_heap st in
  nullish (prop_of h arg "data") = false →
  nullish (prop_of h arg "config") = false →
  allocated h (prop_of h arg "data") →
  allocated h (prop_of h arg "config") →
  host_api h (prop_of h arg "api") block input →
  ∃ this st' container title message st'',
    constructor arg st = (Ok this, st')
    ∧ render this st' = (Ok container, st'')
    ∧ childNodes container = [Elem title; Elem message]
    ∧ contentEditable title =
        (if truthy (prop_of h arg "readOnly") then CE_false else CE_true)
    ∧ contentEditable message =
        (if truthy (prop_of h arg "readOnly") then CE_false else CE_true).
Proof.
  simpl. intros Hd Hc Had Hac Hh.
  destruct (constructor_then_render st arg block input Hd Hc Had Hac Hh)
    as (this & record & st' & Hrun & Hrender).
  by eexists this, st', _, _, _, _.
Qed.

(** X6.  The placeholders shown, for placeholders that are strings: when
    what [config] holds as [titlePlaceholder] and as [messagePlaceholder]
    is a string or falsy (none at all included), each region of the
    element [render] returns for a new instance has one [dataset] entry,
    [placeholder], and it is the string [config] gave when that was not
    empty, and ["Title"], respectively ["Message"], otherwise. *)
Theorem render_shows_placeholders {browser : Browser} st arg block input :
  let h := st_heap st in
  let config := prop_of h arg "config" in
  nullish (prop_of h arg "data") = false →
  nullish config = false →
  allocated h (prop_of h arg "data") →
  allocated h config →
  host_api h (prop_of h arg "api") block input →
  string_or_falsy (prop_of h config "titlePlaceholder") = true →
  string_or_falsy (prop_of h config "messagePlaceholder") = true →
  ∃ this st' container title message st'' tp mp,
    constructor arg st = (Ok this, st')
    ∧ render this st' = (Ok container, st'')
    ∧ childNodes container = [Elem title; Elem message]
    ∧ or_else (prop_of h config "titlePlaceholder") (VStr "Title") = VStr tp
    ∧ or_else (prop_of h config "messagePlaceholder") (VStr "Message")
        = VStr mp
    ∧ dataset title = {[ "placeholder" := tp ]}
    ∧ dataset message = {[ "placeholder" := mp ]}
    ∧ dataset container = ∅.
Proof.
  simpl. intros Hd Hc Had Hac Hh St Sm.
  destruct (constructor_then_render st arg block input Hd Hc Had Hac Hh)
    as (this & record & st' & Hrun & Hrender).
  apply (or_else_string _ "Title") in St.
  apply (or_else_string _ "Message") in Sm.
  destruct (or_else (prop_of _ (prop_of _ arg "config") "titlePlaceholder")
                    (VStr "Title")) as [| | | | |tp|] eqn:Etp; try done.
  destruct (or_else (prop_of _ (prop_of _ arg "config") "messagePlaceholder")
                    (VStr "Message")) as [| | | | |mp|] eqn:Emp; try done.
  eexists this, st', _, _, _, _, tp, mp.
  do 5 (split; [done |]).
  unfold title_region, message_region, region, constructed, dataset. simpl.
  unfold DEFAULT_TITLE_PLACEHOLDER, DEFAULT_MESSAGE_PLACEHOLDER.
  by rewrite Etp, Emp.
Qed.

(** X7.  The content shown: for a title and a message that are text
    without markup characters, each region of the element [render]
    returns for a new instance holds that text as its one text node, no
    node when the text is empty, and reads back as that text. *)
Theorem render_shows_text {browser : Browser} st arg block input t m :
  let h := st_heap st in
  let data := prop_of h arg "data" in
  nullish data = false →
  nullish (prop_of h arg "config") = false →
  allocated h data →
  allocated h (prop_of h arg "config") →
  host_api h (prop_of h arg "api") block input →
  prop_of h data "title" = VStr t → prop_of h data "message" = VStr m →
  literal_text t = true → literal_text m = true →
  ∃ this st' container title message st'',
    constructor arg st = (Ok this, st')
    ∧ render this st' = (Ok container, st'')
    ∧ childNodes container = [Elem title; Elem message]
    ∧ childNodes title = text_run t ∧ innerHTML title = t
    ∧ childNodes message = text_run m ∧ innerHTML message = m.
Proof.
  simpl. intros Hd Hc Had Hac Hh Et Em Lt Lm.
  destruct (constructor_then_render st arg block input Hd Hc Had Hac Hh)
    as (this & record & st' & Hrun & Hrender).
  eexists this, st', _, _, _, _.
  do 3 (split; [done |]).
  unfold innerHTML, title_region, message_region, region, constructed.
  simpl. rewrite Et, Em.
  assert (Eto : or_else (VStr t) (VStr "") = VStr t)
    by (unfold or_else; simpl; by destruct t).
  assert (Emo : or_else (VStr m) (VStr "") = VStr m)
    by (unfold or_else; simpl; by destruct m).
  rewrite Eto, Emo. simpl.
  pose proof (literal_text_reads_back t Lt) as [Rt _].
  pose proof (literal_text_reads_back m Lm) as [Rm _].
  unfold literal_text in Lt, Lm.
  apply andb_prop in Lt as [Lt _]. apply andb_prop in Lm as [Lm _].
  unfold reads_back in *.
  repeat split; try done; by apply parseHTML_plain.
Qed.

(** X8.  The classes given: the container of a rendered element carries
    the host's block class and [cdx-idea], the regions the host's input
    class and their own marker, in that order and each class once, also
    when the host's class is the tool's own; all three are [div]s and the
    container has no class list entry more. *)
Theorem render_classes {browser : Browser} st this w block input :
  widget_at (st_heap st) this w →
  host_api (st_heap st) (w_api w) block input →
  ∃ container title message st',
    render this st = (Ok container, st')
    ∧ childNodes container = [Elem title; Elem message]
    ∧ tagName container = "div" ∧ tagName title = "div"
    ∧ tagName message = "div"
    ∧ classList container = two_classes block "cdx-idea"
    ∧ classList title = two_classes input "cdx-idea__title"
    ∧ classList message = two_classes input "cdx-idea__message".
Proof.
  intros Hw Hh.
  eexists _, (title_region w input), (message_region w input), _.
  split; [by apply render_spec |].
  do 4 (split; [done |]).
  unfold rendered, title_region, message_region, region, classList.
  by rewrite !two_classes_add.
Qed.

(** X9.  Without [api.styles], that is with [this.api] or
    [this.api.styles] undefined or null, [render] throws a TypeError and
    so does [save], on any element, one with both regions too; neither
    changes the state. *)
Theorem render_and_save_need_styles {browser : Browser} st this e :
  nullish (prop_of (st_heap st)
             (prop_of (st_heap st) (VObj this) "api") "styles") = true →
  render this st = (Throw TypeError, st)
  ∧ save this e st = (Throw TypeError, st).
Proof.
  intros Hn.
  assert (Hcss : CSS this st = (Throw TypeError, st)).
  { rewrite CSS_run, Hn. by rewrite orb_true_r. }
  split.
  - unfold render. by erewrite bind_throw.
  - unfold save. by erewrite bind_throw.
Qed.

(** X10.  A block class that [classList.add] refuses: when the string of
    [api.styles.block] is empty, [render] throws a SyntaxError, and when
    it holds white space, an InvalidCharacterError; the one element
    created by then stays counted, and the heap is as it was. *)
Theorem render_refuses_block_class {browser : Browser} st this styles :
  prop_of (st_heap st) (prop_of (st_heap st) (VObj this) "api") "styles"
    = styles →
  nullish styles = false →
  class_token (to_string (prop_of (st_heap st) styles "block")) = false →
  render this st =
    (Throw (if String.eqb (to_string (prop_of (st_heap st) styles "block")) ""
            then SyntaxError else InvalidCharacterError),
     State (st_heap st) (S (st_created st))).
Proof.
  intros Hst Hn Tb.
  assert (Hcss : CSS this st =
    (Ok (Css (prop_of (st_heap st) styles "block") "cdx-idea"
             "cdx-idea__title" (prop_of (st_heap st) styles "input")
             "cdx-idea__message"), st)).
  { rewrite CSS_run. rewrite !Hst, Hn.
    replace (nullish (prop_of (st_heap st) (VObj this) "api")) with false;
      [done |].
    destruct (prop_of (st_heap st) (VObj this) "api"); try done;
      by subst styles. }
  unfold render.
  do 2 (erewrite bind_ok; [| exact Hcss]). simpl.
  erewrite bind_throw; [reflexivity |].
  unfold _make.
  erewrite bind_ok; [| apply createElement_valid, valid_element_name_div].
  erewrite bind_throw; [reflexivity |].
  unfold classList_add. erewrite bind_throw; [reflexivity |].
  simpl. unfold class_token in Tb.
  destruct (String.eqb _ ""); [done |]. simpl in Tb.
  apply negb_false_iff in Tb. by rewrite Tb.
Qed.

(** X11.  A class the host does not give: [render] takes the string of
    whatever [api.styles] holds, so with [block] or [input] missing it
    does not throw; the elements carry the class [undefined] instead. *)
Theorem render_without_class_names {browser : Browser} st this w la ls :
  widget_at (st_heap st) this w →
  w_api w = VObj la →
  field (st_heap st) la "styles" = Some (VObj ls) →
  field (st_heap st) ls "block" = None →
  field (st_heap st) ls "input" = None →
  ∃ container title message st',
    render this st = (Ok container, st')
    ∧ childNodes container = [Elem title; Elem message]
    ∧ classList container = ["undefined"; "cdx-idea"]
    ∧ classList title = ["undefined"; "cdx-idea__title"]
    ∧ classList message = ["undefined"; "cdx-idea__message"].
Proof.
  intros Hw Ea Hst Hb Hi.
  eexists _, (title_region w "undefined"), (message_region w "undefined"), _.
  split.
  - rewrite (render_run st this w (VObj ls) Hw); simpl;
      rewrite ?Ea; simpl; rewrite ?Hst, ?Hb, ?Hi; done.
  - done.
Qed.

(** ** Saving, further *)

Lemma saved_heap_twice h record t1 m1 t2 m2 :
  saved_heap (saved_heap h record t1 m1) record t2 m2
  = saved_heap h record t2 m2.
Proof.
  unfold saved_heap. rewrite lookup_insert_eq, insert_insert_eq. simpl.
  f_equal. apply map_eq. intros k.
  rewrite !lookup_insert. repeat case_decide; done.
Qed.

(** X12.  Two saves in a row: both return the same reference, the record
    of the instance, and the state after them is the state the second
    alone would leave; what the first wrote is gone, also from the
    object the first returned.  Saving the same element twice is saving
    it once. *)
Theorem save_twice_keeps_last {browser : Browser}
        st this w block input e1 e2 :
  widget_at (st_heap st) this w →
  host_api (st_heap st) (w_api w) block input →
  has_descendant "cdx-idea__title" e1 →
  has_descendant "cdx-idea__message" e1 →
  has_descendant "cdx-idea__title" e2 →
  has_descendant "cdx-idea__message" e2 →
  ∃ st1 st2,
    save this e1 st = (Ok (VObj (w_data w)), st1)
    ∧ save this e2 st1 = (Ok (VObj (w_data w)), st2)
    ∧ save this e2 st = (Ok (VObj (w_data w)), st2).
Proof.
  intros Hw Hh Ht1 Hm1 Ht2 Hm2.
  apply first_with_class_is_Some in Ht1 as [t1 Ht1].
  apply first_with_class_is_Some in Hm1 as [m1 Hm1].
  apply first_with_class_is_Some in Ht2 as [t2 Ht2].
  apply first_with_class_is_Some in Hm2 as [m2 Hm2].
  eexists _, _. split; [| split].
  - rewrite (save_spec st this w block input e1 Hw Hh), Ht1, Hm1.
    reflexivity.
  - erewrite save_spec;
      [| apply (save_widget_at _ _ _ (innerHTML t1) (innerHTML m1) Hw)
       | by apply save_host_api].
    rewrite Ht2, Hm2. simpl. rewrite saved_heap_twice. reflexivity.
  - by rewrite (save_spec st this w block input e2 Hw Hh), Ht2, Hm2.
Qed.

(** X13.  What [save] stored is what the next [render] shows: after a
    [save] that returned, the regions of a newly rendered element hold
    the nodes the browser parses from the markup [save] read. *)
Theorem save_then_render {browser : Browser} st this w block input e :
  widget_at (st_heap st) this w →
  host_api (st_heap st) (w_api w) block input →
  has_descendant "cdx-idea__title" e →
  has_descendant "cdx-idea__message" e →
  ∃ t m r st1 container title message st2,
    first_with_class "cdx-idea__title" e = Some t
    ∧ first_with_class "cdx-idea__message" e = Some m
    ∧ save this e st = (Ok r, st1)
    ∧ render this st1 = (Ok container, st2)
    ∧ childNodes container = [Elem title; Elem message]
    ∧ childNodes title = parseHTML (innerHTML t)
    ∧ childNodes message = parseHTML (innerHTML m).
Proof.
  intros Hw Hh Ht Hm.
  apply first_with_class_is_Some in Ht as [t Ht].
  apply first_with_class_is_Some in Hm as [m Hm].
  eexists t, m, _, _, _, _, _, _. do 2 (split; [done |]). split.
  - rewrite (save_spec st this w block input e Hw Hh), Ht, Hm. reflexivity.
  - split.
    + apply render_spec;
        [apply (save_widget_at _ _ _ (innerHTML t) (innerHTML m) Hw)
        | by apply save_host_api].
    + done.
Qed.

(** X14.  A host whose input class is the tool's message class: the title
    region then carries the message class too and comes first, so [save]
    after [render] reads the title's markup for both fields. *)
Theorem save_reads_title_twice {browser : Browser} st this w block :
  widget_at (st_heap st) this w →
  host_api (st_heap st) (w_api w) block "cdx-idea__message" →
  ∃ st',
    bind (render this) (save this) st = (Ok (VObj (w_data w)), st')
    ∧ field (st_heap st') (w_data w) "title"
        = Some (VStr (serializeHTML (parseHTML (markup (w_title w)))))
    ∧ field (st_heap st') (w_data w) "message"
        = Some (VStr (serializeHTML (parseHTML (markup (w_title w))))).
Proof.
  intros Hw Hh.
  erewrite bind_ok; [| by apply render_spec].
  rewrite (save_spec _ this w block "cdx-idea__message"); [| done | done].
  rewrite first_title_rendered.
  assert (Hm : first_with_class "cdx-idea__message"
                 (rendered w block "cdx-idea__message")
               = Some (title_region w "cdx-idea__message")).
  { rewrite first_with_class_nodes. unfold rendered, childNodes.
    rewrite first_in_nodes_elem. unfold title_region at 1.
    rewrite has_class_region.
    rewrite bool_decide_eq_true_2; [done | by left]. }
  rewrite Hm. eexists. split; [done |]. simpl.
  rewrite !field_saved_heap.
  repeat (case_decide; try done).
Qed.

(** ** The life of an instance *)

(** X15.  Over any sequence of [render] and [save] calls, returning or
    throwing: the instance keeps its [api], its [readOnly], its two
    placeholders and the reference to its record; the host's [api]
    object stays as it is; no object is added to the heap; and three
    elements are created for every [render], none for a [save]. *)
Theorem calls_keep_instance {browser : Browser} this block input calls :
  ∀ st w,
    widget_at (st_heap st) this w →
    host_api (st_heap st) (w_api w) block input →
    ∃ t m,
      widget_at (st_heap (after_calls this calls st)) this
        (Widget (w_api w) (w_readOnly w) (w_titlePlaceholder w)
                (w_messagePlaceholder w) (w_data w) t m)
      ∧ host_api (st_heap (after_calls this calls st)) (w_api w) block input
      ∧ dom (st_heap (after_calls this calls st)) = dom (st_heap st)
      ∧ st_created (after_calls this calls st)
        = (st_created st + 3 * renders calls)%nat.
Proof.
  induction calls as [|c calls IH]; intros st w Hw Hh.
  - exists (w_title w), (w_message w). simpl.
    split; [by destruct w |]. split; [done |]. split; [done |]. lia.
  - change (after_calls this (c :: calls) st)
      with (after_calls this calls (after_call this st c)).
    destruct c as [|e]; cbn [after_call renders].
    + rewrite (render_spec st this w block input Hw Hh). cbn [snd].
      destruct (IH (State (st_heap st) (3 + st_created st)) w Hw Hh)
        as (t & m & Hw' & Hh' & Hdom & Hn).
      exists t, m. do 3 (split; [done |]). rewrite Hn.
      cbn [st_created]. lia.
    + rewrite (save_spec st this w block input e Hw Hh).
      destruct (first_with_class "cdx-idea__title" e) as [rt|];
        [destruct (first_with_class "cdx-idea__message" e) as [rm|] |];
        cbn [snd];
        try (destruct (IH st w Hw Hh) as (t & m & ?); by exists t, m).
      pose proof (save_widget_at _ _ _ (innerHTML rt) (innerHTML rm) Hw)
        as Hw1.
      pose proof (save_host_api _ (w_data w) (innerHTML rt) (innerHTML rm)
                    _ _ _ Hh) as Hh1.
      destruct (IH (State (saved_heap (st_heap st) (w_data w) (innerHTML rt)
                             (innerHTML rm)) (st_created st)) _ Hw1 Hh1)
        as (t & m & Hw' & Hh' & Hdom & Hn).
      exists t, m. simpl in *. do 2 (split; [done |]).
      split; [| done]. rewrite Hdom.
      destruct Hw as (_ & _ & _ & _ & _ & Hrec & _). unfold field in Hrec.
      destruct (st_heap st !! w_data w) as [o|] eqn:E; [| done].
      by eapply dom_saved_heap.
Qed.

(** ** The sanitizer rules and [_make] *)

Lemma alloc_fresh o h n :
  ∃ l, h !! l = None ∧ alloc o (State h n) = (Ok l, State (<[l := o]> h) n).
Proof.
  exists (fresh (dom h)). split; [| done].
  apply not_elem_of_dom, is_fresh.
Qed.

(** X16.  [sanitize] builds three new objects at every access and writes
    to no other: a rule set whose fields are [title] and [message], the
    fields of a record, and no other, and for each of the two an empty
    rule object of its own. *)
Theorem sanitize_builds_new_rules st :
  ∃ config title message st',
    sanitize st = (Ok config, st')
    ∧ st_heap st !! config = None ∧ st_heap st !! title = None
    ∧ st_heap st !! message = None
    ∧ config ≠ title ∧ config ≠ message ∧ title ≠ message
    ∧ (∀ k, is_Some (field (st_heap st') config k) ↔
            k = "title" ∨ k = "message")
    ∧ field (st_heap st') config "title" = Some (VObj title)
    ∧ field (st_heap st') config "message" = Some (VObj message)
    ∧ st_heap st' !! title = Some ∅ ∧ st_heap st' !! message = Some ∅
    ∧ (∀ l, is_Some (st_heap st !! l) → st_heap st' !! l = st_heap st !! l)
    ∧ st_created st' = st_created st.
Proof.
  destruct st as [h n]. unfold sanitize.
  destruct (alloc_fresh ∅ h n) as (config & Hc & Ec).
  erewrite bind_ok; [| exact Ec].
  destruct (alloc_fresh ∅ (<[config := ∅]> h) n) as (title & Ht & Et).
  erewrite bind_ok; [| exact Et].
  assert (Hct : config ≠ title).
  { intros <-. by rewrite lookup_insert_eq in Ht. }
  rewrite lookup_insert_ne in Ht by done.
  erewrite bind_ok;
    [| apply set_prop_at; rewrite lookup_insert_ne by done;
       apply lookup_insert_eq].
  match goal with
  | |- context [bind (alloc ∅) _ (State ?h2 _)] =>
      destruct (alloc_fresh ∅ h2 n) as (message & Hm & Em)
  end.
  erewrite bind_ok; [| exact Em].
  assert (Hcm : config ≠ message).
  { intros <-. by rewrite lookup_insert_eq in Hm. }
  rewrite lookup_insert_ne in Hm by done.
  assert (Htm : title ≠ message).
  { intros <-. by rewrite lookup_insert_eq in Hm. }
  rewrite lookup_insert_ne in Hm by done.
  rewrite lookup_insert_ne in Hm by done.
  erewrite bind_ok;
    [| apply set_prop_at; rewrite lookup_insert_ne by done;
       apply lookup_insert_eq].
  exists config, title, message. eexists. split; [reflexivity |].
  cbn [st_heap st_created].
  do 6 (split; [done |]).
  split.
  { intros k. rewrite field_insert_eq.
    rewrite !lookup_insert_is_Some, lookup_empty, is_Some_alt.
    intuition (subst; first [done | auto 10]). }
  rewrite !field_insert_eq.
  split; [by rewrite lookup_insert_ne, lookup_insert_eq |].
  split; [by rewrite lookup_insert_eq |].
  split.
  { rewrite lookup_insert_ne, lookup_insert_ne, lookup_insert_ne,
      lookup_insert_eq by done. done. }
  split.
  { by rewrite lookup_insert_ne, lookup_insert_eq. }
  split; [| done].
  intros l [o Hl].
  rewrite !lookup_insert_ne; [done | | | | |]; intros ->; congruence.
Qed.

Lemma append_tokens_spec tokens :
  ∀ cl, NoDup cl →
    NoDup (foldl append_token cl tokens)
    ∧ ∀ x, x ∈ foldl append_token cl tokens ↔ x ∈ cl ∨ x ∈ tokens.
Proof.
  induction tokens as [|t r IH]; intros cl Hcl; simpl.
  - split; [done |]. intros x. rewrite elem_of_nil. tauto.
  - assert (Hnd : NoDup (append_token cl t)).
    { unfold append_token. case_bool_decide as Hin; [done |].
      apply NoDup_app. split; [done |]. split.
      - intros x Hx Hx'. apply list_elem_of_singleton in Hx'. by subst.
      - apply NoDup_singleton. }
    destruct (IH _ Hnd) as [Hnd' Hin']. split; [done |].
    intros x. rewrite Hin', elem_of_append_token, elem_of_cons. tauto.
Qed.

(** [_make] with a name [document.createElement] refuses: an
    InvalidCharacterError, and nothing is created. *)
Lemma _make_invalid_name {browser : Browser} tagName classNames attributes st :
  valid_element_name tagName = false →
  _make tagName classNames attributes st = (Throw InvalidCharacterError, st).
Proof.
  intros Hv. unfold _make. erewrite bind_throw; [reflexivity |].
  unfold createElement. by rewrite Hv.
Qed.

(** X17.  The class list [_make] gives an element: for a tag name that
    [document.createElement] accepts and class names that are strings
    [classList.add] accepts, the element returned has the tag in lower
    case, carries each of the class names, nothing else, and none twice,
    with no attribute set and no child; one element is created and the
    heap is not touched. *)
Theorem _make_class_list {browser : Browser} tagName (names : list string)
        st :
  valid_element_name tagName = true →
  forallb class_token names = true →
  ∃ el st',
    _make tagName (ClassArray (VStr <$> names)) [] st = (Ok el, st')
    ∧ NoDup (classList el)
    ∧ (∀ x, x ∈ classList el ↔ x ∈ names)
    ∧ DOM.tagName el = lowercase tagName ∧ childNodes el = []
    ∧ contentEditable el = CE_inherit ∧ dataset el = ∅
    ∧ st_heap st' = st_heap st ∧ st_created st' = S (st_created st).
Proof.
  intros Hv Hok. destruct st as [h n].
  assert (Hs : to_string <$> (VStr <$> names) = names).
  { rewrite <- list_fmap_compose. apply list_fmap_id. }
  rewrite _make_named by (by rewrite ?Hs). rewrite Hs.
  eexists _, _. split; [reflexivity |]. simpl.
  destruct (append_tokens_spec names [] (NoDup_nil_2)) as [Hnd Hin].
  split; [done |]. split; [| done].
  intros x. rewrite Hin, elem_of_nil. tauto.
Qed.

(** ** The further properties, run *)

(** X2, run: building from the [data] object at 3 and saving the edited
    element leaves that object as it was. *)
Lemma constructor_and_save_spare_old_objects_witness :
  ∃ this record st',
    constructor example_arg (example_state data_A_B ∅ (VBool false))
      = (Ok this, st')
    ∧ record ≠ this
    ∧ field (st_heap st') this "data" = Some (VObj record)
    ∧ st_heap st' !! 3%positive = Some data_A_B
    ∧ st_heap (snd (@save text_browser this edited_element st'))
        !! 3%positive = Some data_A_B.
Proof.
  destruct (@constructor_and_save_spare_old_objects text_browser
              (example_state data_A_B ∅ (VBool false)) example_arg
              edited_element)
    as (this & record & st' & Hrun & _ & _ & Hne & Hdata & Hold).
  - vm_compute. reflexivity.
  - vm_compute. reflexivity.
  - vm_compute. eauto.
  - vm_compute. eauto.
  - exists this, record, st'. do 3 (split; [assumption |]).
    destruct (Hold 3%positive) as [H1 H2]; [vm_compute; eauto |].
    split; [exact H1 | exact H2].
Defined.

(** X3, run: the number 42 is kept as the title, and the placeholders
    [Name it] and [Say more] are kept. *)
Lemma constructor_keeps_truthy_witness :
  ∃ this record st',
    constructor example_arg
      (example_state data_number_title config_placeholders (VBool false))
      = (Ok this, st')
    ∧ field (st_heap st') record "title" = Some (VNum 42)
    ∧ field (st_heap st') this "titlePlaceholder" = Some (VStr "Name it")
    ∧ field (st_heap st') this "messagePlaceholder"
        = Some (VStr "Say more").
Proof.
  destruct (constructor_keeps_truthy
              (example_state data_number_title config_placeholders
                             (VBool false))
              example_arg 3%positive 4%positive data_number_title
              config_placeholders)
    as (this & record & st' & Hrun & _ & Ht & _ & Htp & Hmp);
    [vm_compute; reflexivity ..|].
  exists this, record, st'.
  repeat split; [exact Hrun | apply Ht | apply Htp | apply Hmp];
    vm_compute; reflexivity.
Defined.

(** X4, run: the field [author] of [data] is not in the record. *)
Lemma constructor_record_has_two_fields_witness :
  ∃ this record st',
    constructor example_arg
      (example_state data_with_extra ∅ (VBool false)) = (Ok this, st')
    ∧ field (st_heap st') this "data" = Some (VObj record)
    ∧ field (st_heap st') record "author" = None.
Proof.
  destruct (constructor_record_has_two_fields
              (example_state data_with_extra ∅ (VBool false)) example_arg)
    as (this & record & st' & Hrun & Hdata & Hrec & _).
  - vm_compute. reflexivity.
  - vm_compute. reflexivity.
  - vm_compute. eauto.
  - vm_compute. eauto.
  - exists this, record, st'. do 2 (split; [assumption |]).
    apply eq_None_not_Some. intros Hs. apply Hrec in Hs as [Hs|Hs];
      discriminate.
Defined.

(** X5, run: built without [readOnly], the regions are editable. *)
Lemma render_editable_by_truthiness_witness :
  ∃ this st' container title message st'',
    constructor example_arg (example_state data_A_B ∅ VUndefined)
      = (Ok this, st')
    ∧ @render text_browser this st' = (Ok container, st'')
    ∧ childNodes container = [Elem title; Elem message]
    ∧ contentEditable title = CE_true
    ∧ contentEditable message = CE_true.
Proof.
  apply (@render_editable_by_truthiness text_browser
           (example_state data_A_B ∅ VUndefined) example_arg
           "cdx-block" "cdx-input").
  - vm_compute. reflexivity.
  - vm_compute. reflexivity.
  - vm_compute. eauto.
  - vm_compute. eauto.
  - exists 1%positive, 2%positive. repeat split; vm_compute; reflexivity.
Defined.

(** X6, run: the placeholders [Name it] and [Say more] are shown. *)
Lemma render_shows_placeholders_witness :
  ∃ this st' container title message st'',
    constructor example_arg
      (example_state data_A_B config_placeholders (VBool false))
      = (Ok this, st')
    ∧ @render text_browser this st' = (Ok container, st'')
    ∧ childNodes container = [Elem title; Elem message]
    ∧ dataset title = {[ "placeholder" := "Name it" ]}
    ∧ dataset message = {[ "placeholder" := "Say more" ]}
    ∧ dataset container = ∅.
Proof.
  destruct (@render_shows_placeholders text_browser
              (example_state data_A_B config_placeholders (VBool false))
              example_arg "cdx-block" "cdx-input")
    as (this & st' & container & title & message & st'' & tp & mp
        & Hrun & Hrender & Hkids & Etp & Emp & Ht & Hm & Hc).
  - vm_compute. reflexivity.
  - vm_compute. reflexivity.
  - vm_compute. eauto.
  - vm_compute. eauto.
  - exists 1%positive, 2%positive. repeat split; vm_compute; reflexivity.
  - vm_compute. reflexivity.
  - vm_compute. reflexivity.
  - vm_compute in Etp, Emp. injection Etp as <-. injection Emp as <-.
    exists this, st', container, title, message, st''.
    repeat split; assumption.
Defined.

(** X7, run: the regions hold the text [A] and the text [B]. *)
Lemma render_shows_text_witness :
  ∃ this st' container title message st'',
    constructor example_arg (example_state data_A_B ∅ (VBool false))
      = (Ok this, st')
    ∧ @render text_browser this st' = (Ok container, st'')
    ∧ childNodes container = [Elem title; Elem message]
    ∧ childNodes title = [Text "A"] ∧ @innerHTML text_browser title = "A"
    ∧ childNodes message = [Text "B"]
    ∧ @innerHTML text_browser message = "B".
Proof.
  apply (@render_shows_text text_browser
           (example_state data_A_B ∅ (VBool false)) example_arg
           "cdx-block" "cdx-input" "A" "B").
  - vm_compute. reflexivity.
  - vm_compute. reflexivity.
  - vm_compute. eauto.
  - vm_compute. eauto.
  - exists 1%positive, 2%positive. repeat split; vm_compute; reflexivity.
  - vm_compute. reflexivity.
  - vm_compute. reflexivity.
  - reflexivity.
  - reflexivity.
Defined.

(** X8, run: the classes of the three elements in the editor's host. *)
Lemma render_classes_witness :
  ∃ container title message st',
    @render text_browser 6%positive (widget_A_B_state (VBool false))
      = (Ok container, st')
    ∧ childNodes container = [Elem title; Elem message]
    ∧ tagName container = "div" ∧ tagName title = "div"
    ∧ tagName message = "div"
    ∧ classList container = ["cdx-block"; "cdx-idea"]
    ∧ classList title = ["cdx-input"; "cdx-idea__title"]
    ∧ classList message = ["cdx-input"; "cdx-idea__message"].
Proof.
  apply (@render_classes text_browser (widget_A_B_state (VBool false))
           6%positive (widget_A_B (VBool false)) "cdx-block" "cdx-input").
  - repeat split; vm_compute; reflexivity.
  - exists 1%positive, 2%positive. repeat split; vm_compute; reflexivity.
Defined.

(** X9, run: an instance built with [api: {}] can neither be rendered nor
    saved. *)
Lemma render_and_save_need_styles_witness :
  @render text_browser 6%positive (built (heap_bare_api data_A_B ∅))
    = (Throw TypeError, built (heap_bare_api data_A_B ∅))
  ∧ @save text_browser 6%positive edited_element
      (built (heap_bare_api data_A_B ∅))
    = (Throw TypeError, built (heap_bare_api data_A_B ∅)).
Proof.
  apply (@render_and_save_need_styles text_browser
           (built (heap_bare_api data_A_B ∅)) 6%positive edited_element).
  vm_compute. reflexivity.
Defined.

(** X10, run: with the empty string as block class [render] throws a
    SyntaxError after one element. *)
Lemma render_refuses_block_class_witness :
  @render text_browser 6%positive
    (built (heap_with_styles (VStr "") (VStr "cdx-input")))
  = (Throw SyntaxError,
     State (st_heap (built (heap_with_styles (VStr "") (VStr "cdx-input"))))
           1).
Proof.
  apply (@render_refuses_block_class text_browser
           (built (heap_with_styles (VStr "") (VStr "cdx-input")))
           6%positive (VObj 2%positive)).
  - vm_compute. reflexivity.
  - reflexivity.
  - vm_compute. reflexivity.
Defined.

(** X11, run: with [styles: {}] the elements carry the class
    [undefined]. *)
Lemma render_without_class_names_witness :
  ∃ container title message st',
    @render text_browser 6%positive (built heap_empty_styles)
      = (Ok container, st')
    ∧ childNodes container = [Elem title; Elem message]
    ∧ classList container = ["undefined"; "cdx-idea"]
    ∧ classList title = ["undefined"; "cdx-idea__title"]
    ∧ classList message = ["undefined"; "cdx-idea__message"].
Proof.
  apply (@render_without_class_names text_browser (built heap_empty_styles)
           6%positive (widget_A_B (VBool false)) 1%positive 2%positive).
  - repeat split; vm_compute; reflexivity.
  - reflexivity.
  - vm_compute. reflexivity.
  - vm_compute. reflexivity.
  - vm_compute. reflexivity.
Defined.

(** X12, run: after saving the edited element and then the second one,
    the record holds [Plan] and [Step one], as after the second alone. *)
Lemma save_twice_keeps_last_witness :
  ∃ st1 st2,
    @save text_browser 6%positive edited_element
      (widget_A_B_state (VBool false)) = (Ok (VObj 7%positive), st1)
    ∧ @save text_browser 6%positive edited_again st1
      = (Ok (VObj 7%positive), st2)
    ∧ @save text_browser 6%positive edited_again
        (widget_A_B_state (VBool false)) = (Ok (VObj 7%positive), st2).
Proof.
  apply (@save_twice_keeps_last text_browser
           (widget_A_B_state (VBool false)) 6%positive
           (widget_A_B (VBool false)) "cdx-block" "cdx-input"
           edited_element edited_again).
  - repeat split; vm_compute; reflexivity.
  - exists 1%positive, 2%positive. repeat split; vm_compute; reflexivity.
  - apply first_with_class_is_Some. vm_compute. eauto.
  - apply first_with_class_is_Some. vm_compute. eauto.
  - apply first_with_class_is_Some. vm_compute. eauto.
  - apply first_with_class_is_Some. vm_compute. eauto.
Defined.

(** X13, run: after saving the edited element, a new render shows what
    the browser parses from [Idea] and from [x &lt; y]. *)
Lemma save_then_render_witness :
  ∃ r st1 container title message st2,
    @save text_browser 6%positive edited_element
      (widget_A_B_state (VBool false)) = (Ok r, st1)
    ∧ @render text_browser 6%positive st1 = (Ok container, st2)
    ∧ childNodes container = [Elem title; Elem message]
    ∧ childNodes title = @parseHTML text_browser "Idea"
    ∧ childNodes message = @parseHTML text_browser "x &lt; y".
Proof.
  destruct (@save_then_render text_browser
              (widget_A_B_state (VBool false)) 6%positive
              (widget_A_B (VBool false)) "cdx-block" "cdx-input"
              edited_element)
    as (t & m & r & st1 & container & title & message & st2 & Et & Em
        & Hsave & Hrender & Hkids & Ht & Hm).
  - repeat split; vm_compute; reflexivity.
  - exists 1%positive, 2%positive. repeat split; vm_compute; reflexivity.
  - apply first_with_class_is_Some. vm_compute. eauto.
  - apply first_with_class_is_Some. vm_compute. eauto.
  - vm_compute in Et, Em. injection Et as <-. injection Em as <-.
    exists r, st1, container, title, message, st2.
    repeat split; assumption.
Defined.

(** X14, run: in a host whose input class is [cdx-idea__message], the
    record built with [A] and [B] holds [A] twice after render and
    save. *)
Lemma save_reads_title_twice_witness :
  ∃ st',
    bind (@render text_browser 6%positive) (@save text_browser 6%positive)
         (built (heap_with_styles (VStr "cdx-block")
                                  (VStr "cdx-idea__message")))
      = (Ok (VObj 7%positive), st')
    ∧ field (st_heap st') 7%positive "title" = Some (VStr "A")
    ∧ field (st_heap st') 7%positive "message" = Some (VStr "A").
Proof.
  apply (@save_reads_title_twice text_browser
           (built (heap_with_styles (VStr "cdx-block")
                                    (VStr "cdx-idea__message")))
           6%positive (widget_A_B (VBool false)) "cdx-block").
  - repeat split; vm_compute; reflexivity.
  - exists 1%positive, 2%positive. repeat split; vm_compute; reflexivity.
Defined.

(** X15, run: after render, save, a save that throws and render, the
    instance at 6 has its placeholders and six elements were created. *)
Lemma calls_keep_instance_witness :
  ∃ t m,
    widget_at
      (st_heap (@after_calls text_browser 6%positive example_calls
                  (widget_A_B_state (VBool false))))
      6%positive
      (Widget (VObj 1%positive) (VBool false) (VStr "Title")
              (VStr "Message") 7%positive t m)
    ∧ st_created (@after_calls text_browser 6%positive example_calls
                    (widget_A_B_state (VBool false))) = 6%nat.
Proof.
  destruct (@calls_keep_instance text_browser 6%positive
              "cdx-block" "cdx-input" example_calls
              (widget_A_B_state (VBool false)) (widget_A_B (VBool false)))
    as (t & m & Hw & _ & _ & Hn).
  - repeat split; vm_compute; reflexivity.
  - exists 1%positive, 2%positive. repeat split; vm_compute; reflexivity.
  - exists t, m. split; [exact Hw | exact Hn].
Defined.

(** X17, run: [_make('DIV', ['a', 'b', 'a'])] gives a [div] with the
    classes [a] and [b], once each. *)
Lemma _make_class_list_witness :
  ∃ el st',
    @_make text_browser "DIV"
      (ClassArray [VStr "a"; VStr "b"; VStr "a"]) [] (State ∅ 0)
      = (Ok el, st')
    ∧ NoDup (classList el)
    ∧ (∀ x, x ∈ classList el ↔ x ∈ ["a"; "b"; "a"])
    ∧ tagName el = "div"
    ∧ st_created st' = 1%nat.
Proof.
  destruct (@_make_class_list text_browser "DIV" ["a"; "b"; "a"]
              (State ∅ 0))
    as (el & st' & Hrun & Hnd & Hin & Htag & _ & _ & _ & _ & Hn).
  - reflexivity.
  - reflexivity.
  - exists el, st'. repeat split; try assumption; apply Hin.
Defined.
